(** * Password-reset workflow of [src/controllers/user.ts]

    A shallow embedding of the three handlers that make up the
    password-reset token lifecycle:

    - [forgot]    (POST /forgot,       "RequestReset" in the specification),
    - [getReset]  (GET  /reset/:token, "VerifyToken"),
    - [postReset] (POST /reset/:token, "Redeem").

    The handlers are written in a small state-and-exception monad.  The
    state holds the user directory, the response written to [res], the
    errors handed to [next], the mails given to the transporter and the
    log of collaborator calls.  What the collaborators answer (clock,
    random source, storage, session and mail errors) is an input of each
    request, [Env]. *)

From Stdlib Require Import ZArith List String Ascii Bool Lia.
From Stdlib Require Strings.Byte.
Import ListNotations.

Local Open Scope string_scope.
Local Open Scope Z_scope.

(* ================================================================== *)
(** ** JavaScript values used by the handlers *)

Module JS.

(** An [Error] object; only its [message] is ever inspected. *)
Record Error := mkError { message : string }.

(** Exceptions thrown while a callback runs. *)
Inductive Exn :=
| TypeError (msg : string)       (* property access on null/undefined *)
| CallbackAlreadyCalled          (* async: a task callback used twice *)
| HeadersAlreadySent.            (* express: a second res.send *)

(** *** [ToNumber] on strings, and [<] of a string and a number

    [user.passwordResetToken < Date.now()] compares a string with a
    number, so the string is first converted by [ToNumber] (ECMAScript,
    StringToNumber).  White space around the literal is dropped; the
    empty string is 0; a decimal literal may have a sign, a fraction
    and an exponent, or be [Infinity]; the [0b], [0o] and [0x] integer
    literals take no sign; every other string is NaN.  The value of the
    literal is rounded to the nearest double, ties to even.  A character
    of a string here is a character of the JavaScript string; its code
    is below 256. *)

Inductive Number :=
| NaN
| Infinity (negative : bool)
| Finite (m e : Z).                (* the double m * 2^e *)

Definition digit_val (base : Z) (c : ascii) : option Z :=
  let n := Z.of_N (N_of_ascii c) in
  let d := if (48 <=? n) && (n <=? 57) then Some (n - 48)
           else if (97 <=? n) && (n <=? 102) then Some (n - 87)
           else if (65 <=? n) && (n <=? 70) then Some (n - 55)
           else None in
  match d with
  | Some v => if v <? base then Some v else None
  | None => None
  end.

Fixpoint digits_val (base acc : Z) (s : string) : option Z :=
  match s with
  | EmptyString => Some acc
  | String c s' =>
      match digit_val base c with
      | Some d => digits_val base (acc * base + d) s'
      | None => None
      end
  end.

(** One or more digits of the given base. *)
Definition integer_literal (base : Z) (s : string) : option Z :=
  match s with
  | EmptyString => None
  | _ => digits_val base 0 s
  end.

Definition is_letter (lower : ascii) (c : ascii) : bool :=
  let n := N_of_ascii c in
  let l := N_of_ascii lower in
  (N.eqb n l || N.eqb (n + 32) l)%N.

(** [2^k <= a / b], for positive [a] and [b]. *)
Definition pow2_le (k a b : Z) : bool :=
  if 0 <=? k then b * 2 ^ k <=? a else b <=? a * 2 ^ (- k).

(** The integer part of the binary logarithm of [a / b]. *)
Definition floor_log2 (a b : Z) : Z :=
  let k := Z.log2 a - Z.log2 b in
  if pow2_le k a b then k else k - 1.

(** The integer nearest to [a / b], the even one of two that are as
    near. *)
Definition round_half_even (a b : Z) : Z :=
  let q := a / b in
  match 2 * (a mod b) ?= b with
  | Lt => q
  | Gt => q + 1
  | Eq => if Z.even q then q else q + 1
  end.

(** The double nearest to [a / b], for [a >= 0] and [b > 0], with the
    sign [negative]: 53 bits of precision, exponents of the last bit
    from -1074 to 971, and infinity from 2^1024 on. *)
Definition to_double (negative : bool) (a b : Z) : Number :=
  if a =? 0 then Finite 0 0
  else
    let k := floor_log2 a b in
    if 1024 <=? k then Infinity negative
    else
      let e := Z.max (k - 52) (- 1074) in
      let m := if 0 <=? e then round_half_even a (b * 2 ^ e)
               else round_half_even (a * 2 ^ (- e)) b in
      if (e =? 971) && (2 ^ 53 <=? m) then Infinity negative
      else Finite (if negative then - m else m) e.

(** WhiteSpace and LineTerminator: tab, line feed, vertical tab, form
    feed, carriage return, space, no-break space. *)
Definition is_white_space (c : ascii) : bool :=
  let n := N_of_ascii c in
  ((9 <=? n) && (n <=? 13) || (n =? 32) || (n =? 160))%N.

Fixpoint trim_left (s : string) : string :=
  match s with
  | EmptyString => EmptyString
  | String c s' => if is_white_space c then trim_left s' else s
  end.

Fixpoint trim_right (s : string) : string :=
  match s with
  | EmptyString => EmptyString
  | String c s' =>
      match trim_right s' with
      | EmptyString =>
          if is_white_space c then EmptyString else String c EmptyString
      | t => String c t
      end
  end.

Definition is_digit (c : ascii) : bool :=
  let n := N_of_ascii c in
  ((48 <=? n) && (n <=? 57))%N.

(** The decimal digits a string starts with, and what follows them. *)
Fixpoint span_digits (s : string) : string * string :=
  match s with
  | EmptyString => (EmptyString, EmptyString)
  | String c s' =>
      if is_digit c
      then let (d, r) := span_digits s' in (String c d, r)
      else (EmptyString, s)
  end.

(** An optional sign: whether it is a minus, and what follows it. *)
Definition take_sign (s : string) : bool * string :=
  match s with
  | String "+" r => (false, r)
  | String "-" r => (true, r)
  | _ => (false, s)
  end.

(** What follows the digits of a decimal literal: nothing, or [e] or
    [E], an optional sign and one or more digits.  [None] when it is
    neither. *)
Definition ExponentPart (s : string) : option Z :=
  match s with
  | EmptyString => Some 0
  | String c r =>
      if is_letter "e" c
      then let (negative, ds) := take_sign r in
           match integer_literal 10 ds with
           | Some v => Some (if negative then - v else v)
           | None => None
           end
      else None
  end.

(** The double of [m * 10^x], where [m >= 0] is written with [d]
    digits.  Above 10^400 it is infinite and below 10^-400 it is 0,
    whatever the digits. *)
Definition decimal (negative : bool) (m x : Z) (d : nat) : Number :=
  if m =? 0 then Finite 0 0
  else if 400 <? x then Infinity negative
  else if x + Z.of_nat d <? - 400 then Finite 0 0
  else if 0 <=? x then to_double negative (m * 10 ^ x) 1
  else to_double negative m (10 ^ (- x)).

Definition StrUnsignedDecimalLiteral (negative : bool) (s : string)
  : Number :=
  if String.eqb s "Infinity" then Infinity negative
  else
    let (ip, r1) := span_digits s in
    let '(fp, r2) :=
      match r1 with
      | String "." r => span_digits r
      | _ => (EmptyString, r1)
      end in
    let digits := ip ++ fp in
    match digits, digits_val 10 0 digits, ExponentPart r2 with
    | String _ _, Some m, Some x =>
        decimal negative m (x - Z.of_nat (String.length fp))
                (String.length digits)
    | _, _, _ => NaN
    end.

Definition StrDecimalLiteral (s : string) : Number :=
  let (negative, r) := take_sign s in
  StrUnsignedDecimalLiteral negative r.

Definition NonDecimalIntegerLiteral (base : Z) (digits : string)
  : Number :=
  match integer_literal base digits with
  | Some v => to_double false v 1
  | None => NaN
  end.

Definition StringToNumber (s : string) : Number :=
  let t := trim_right (trim_left s) in
  match t with
  | EmptyString => Finite 0 0
  | String "0" (String c rest) =>
      if is_letter "b" c then NonDecimalIntegerLiteral 2 rest
      else if is_letter "o" c then NonDecimalIntegerLiteral 8 rest
      else if is_letter "x" c then NonDecimalIntegerLiteral 16 rest
      else StrDecimalLiteral t
  | _ => StrDecimalLiteral t
  end.

(** [x < n] for a Number [x] and an integer [n] that a double holds as
    it is, such as a reading of the clock. *)
Definition Number_ltb (x : Number) (n : Z) : bool :=
  match x with
  | NaN => false
  | Infinity negative => negative
  | Finite m e => if 0 <=? e then m * 2 ^ e <? n else m <? n * 2 ^ (- e)
  end.

(** [x < n] for a property [x] that holds a string or is [undefined],
    and a number [n]: [undefined] and the strings that are no literal
    convert to NaN, and every comparison with NaN is false. *)
Definition lt (x : option string) (n : Z) : bool :=
  match x with
  | None => false
  | Some s => Number_ltb (StringToNumber s) n
  end.

(** *** [Buffer.prototype.toString("hex")] *)

Definition hex_digit (n : N) : ascii :=
  match n with
  | 0 => "0" | 1 => "1" | 2 => "2" | 3 => "3" | 4 => "4" | 5 => "5"
  | 6 => "6" | 7 => "7" | 8 => "8" | 9 => "9" | 10 => "a" | 11 => "b"
  | 12 => "c" | 13 => "d" | 14 => "e" | _ => "f"
  end%N%char.

Definition byte_to_hex (b : Byte.byte) : string :=
  let n := Byte.to_N b in
  String (hex_digit (n / 16)) (String (hex_digit (n mod 16)) EmptyString).

Fixpoint Buffer_toString_hex (buf : list Byte.byte) : string :=
  match buf with
  | [] => EmptyString
  | b :: rest => byte_to_hex b ++ Buffer_toString_hex rest
  end.

Definition is_hex_char (c : ascii) : bool :=
  let n := N_of_ascii c in
  ((48 <=? n) && (n <=? 57) || (97 <=? n) && (n <=? 102))%N.

Fixpoint all_hex (s : string) : bool :=
  match s with
  | EmptyString => true
  | String c s' => is_hex_char c && all_hex s'
  end.

End JS.

(* ================================================================== *)
(** ** Data model *)

(** The properties of a user node that the reset handlers read or write.
    A property that is [undefined] is [None]. *)
Record UserRecord := mkUser {
  email : string;
  password : string;
  passwordResetToken : option string;
  passwordResetExpires : option Z
}.

(** The parts of an express request that the handlers read. *)
Record Request := mkRequest {
  isAuthenticated : bool;          (* req.isAuthenticated() *)
  params_token : string;           (* req.params.token *)
  body_email : string;             (* req.body.email *)
  body_password : string;          (* req.body.password *)
  body_confirmPassword : string;   (* req.body.confirmPassword *)
  headers_host : string            (* req.headers.host *)
}.

Record Mail := mkMail {
  mail_to : string;
  mail_from : string;
  mail_subject : string;
  mail_text : string
}.

(** What [res.send] is given: a text, or the array of validation errors
    (parameter and message of each failed assertion). *)
Inductive Body :=
| Text (s : string)
| ValidationErrors (errors : list (string * string)).

(** Calls to the collaborators, in the order they are made. *)
Inductive Call :=
| CallRandomBytes
| CallFindOne
| CallSave
| CallLogIn
| CallSendMail.

(** What the collaborators answer during one request. *)
Record Env := mkEnv {
  Date_now : Z;                            (* Date.now(), milliseconds *)
  random_source : JS.Error + (nat -> Byte.byte); (* crypto error, or bytes *)
  findOne_err : option JS.Error;
  save_err : option JS.Error;
  logIn_err : option JS.Error;
  sendMail_err : option JS.Error
}.

Record St := mkSt {
  store : list UserRecord;           (* the user directory *)
  response : option (Z * Body);      (* status and body written to res *)
  nexts : list JS.Error;             (* errors passed to next *)
  mails : list Mail;                 (* mails handed to the transporter *)
  session : option string;           (* email of the logged-in user *)
  calls : list Call;                 (* collaborator calls so far *)
  called : list nat                  (* waterfall callbacks already used *)
}.

(** The state a request starts in: nothing written yet. *)
Definition begin_request (dir : list UserRecord) : St :=
  mkSt dir None [] [] None [] [].

Definition set_store (d : list UserRecord) (st : St) : St :=
  mkSt d (response st) (nexts st) (mails st) (session st) (calls st)
       (called st).
Definition set_response (r : option (Z * Body)) (st : St) : St :=
  mkSt (store st) r (nexts st) (mails st) (session st) (calls st)
       (called st).
Definition set_nexts (n : list JS.Error) (st : St) : St :=
  mkSt (store st) (response st) n (mails st) (session st) (calls st)
       (called st).
Definition set_mails (m : list Mail) (st : St) : St :=
  mkSt (store st) (response st) (nexts st) m (session st) (calls st)
       (called st).
Definition set_session (s : option string) (st : St) : St :=
  mkSt (store st) (response st) (nexts st) (mails st) s (calls st)
       (called st).
Definition set_calls (c : list Call) (st : St) : St :=
  mkSt (store st) (response st) (nexts st) (mails st) (session st) c
       (called st).
Definition set_called (c : list nat) (st : St) : St :=
  mkSt (store st) (response st) (nexts st) (mails st) (session st)
       (calls st) c.

(* ================================================================== *)
(** ** The monad of a request: state, and exceptions that abort it *)

Definition M (A : Type) : Type := St -> (A + JS.Exn) * St.

Definition ret {A : Type} (a : A) : M A := fun st => (inl a, st).

Definition bind {A B : Type} (m : M A) (f : A -> M B) : M B :=
  fun st =>
    match m st with
    | (inl a, st') => f a st'
    | (inr e, st') => (inr e, st')
    end.

Definition throw {A : Type} (e : JS.Exn) : M A := fun st => (inr e, st).

Notation "x <- m ;; k" := (bind m (fun x => k))
  (at level 61, m at next level, right associativity).
Notation "m ;; k" := (bind m (fun _ => k))
  (at level 61, right associativity).

(** [res.status(code).send(body)]: the first call writes the response; a
    later one throws, the headers being sent already, and the client keeps
    the first. *)
Definition res_send (status : Z) (b : Body) : M unit :=
  fun st =>
    match response st with
    | Some _ => (inr JS.HeadersAlreadySent, st)
    | None => (inl tt, set_response (Some (status, b)) st)
    end.

(** [next(err)]: hands the error to the framework. *)
Definition next (e : JS.Error) : M unit :=
  fun st => (inl tt, set_nexts (nexts st ++ [e]) st).

Definition call (c : Call) : M unit :=
  fun st => (inl tt, set_calls (calls st ++ [c]) st).

(* ================================================================== *)
(** ** Collaborators *)

Inductive Query :=
| ByEmail (e : string)             (* { email: ... } *)
| ByToken (t : string).            (* { passwordResetToken: ... } *)

Definition matches (q : Query) (u : UserRecord) : bool :=
  match q with
  | ByEmail e => String.eqb (email u) e
  | ByToken t =>
      match passwordResetToken u with
      | Some t' => String.eqb t' t
      | None => false
      end
  end.

(** Modelled from the spec: the [User] model of models/User, which is not
    among the sources.  The directory is a collection of records looked up
    by email or by reset token; [lookup] is the query of [User.findOne]. *)
Definition lookup (q : Query) (dir : list UserRecord) : option UserRecord :=
  find (matches q) dir.

(** Modelled from the spec: what [user.save] of models/User persists, an
    update of the record keyed by email. *)
Definition update (u : UserRecord) (dir : list UserRecord)
  : list UserRecord :=
  map (fun r => if String.eqb (email r) (email u) then u else r) dir.

(** [User.findOne(query, (err, user) => ...)]: the arguments given to the
    callback. *)
Definition User_findOne (env : Env) (q : Query)
  : M (option JS.Error * option UserRecord) :=
  call CallFindOne;;
  fun st =>
    match findOne_err env with
    | Some e => (inl (Some e, None), st)
    | None => (inl (None, lookup q (store st)), st)
    end.

(** [user.save((err) => ...)].  Modelled from the spec: a storage failure
    leaves no partial change of state. *)
Definition user_save (env : Env) (u : UserRecord) : M (option JS.Error) :=
  call CallSave;;
  fun st =>
    match save_err env with
    | Some e => (inl (Some e), st)
    | None => (inl None, set_store (update u (store st)) st)
    end.

(** [req.logIn(user, (err) => ...)] *)
Definition req_logIn (env : Env) (u : UserRecord) : M (option JS.Error) :=
  call CallLogIn;;
  fun st =>
    match logIn_err env with
    | Some e => (inl (Some e), st)
    | None => (inl None, set_session (Some (email u)) st)
    end.

(** [transporter.sendMail(mailOptions, (err) => ...)]: one attempt. *)
Definition transporter_sendMail (env : Env) (m : Mail)
  : M (option JS.Error) :=
  call CallSendMail;;
  fun st => (inl (sendMail_err env), set_mails (mails st ++ [m]) st).

(** [crypto.randomBytes(size, (err, buf) => ...)]: on an error there is no
    buffer. *)
Definition crypto_randomBytes (env : Env) (size : nat)
  : M (option JS.Error * option (list Byte.byte)) :=
  call CallRandomBytes;;
  ret (match random_source env with
       | inl e => (Some e, None)
       | inr src => (None, Some (map src (seq 0 size)))
       end).

(** [async.waterfall] gives each task a callback guarded by [onlyOnce]:
    used a second time, it throws. *)
Definition onlyOnce (i : nat) (k : M unit) : M unit :=
  fun st =>
    if existsb (Nat.eqb i) (called st)
    then (inr JS.CallbackAlreadyCalled, st)
    else k (set_called (i :: called st) st).

(** The callback of task [i]: an error goes to the final callback,
    otherwise the next task runs. *)
Definition waterfall_next (i : nat) (final : option JS.Error -> M unit)
  (err : option JS.Error) (next_task : M unit) : M unit :=
  onlyOnce i (match err with
              | Some e => final (Some e)
              | None => next_task
              end).

(** express-validator: [.len({ min })]. *)
Definition len_min (min : nat) (s : string) : bool :=
  (min <=? String.length s)%nat.

Definition nl : string := String (ascii_of_nat 10) EmptyString.

(* ================================================================== *)
(** ** GET /reset/:token *)

(** [!user || user.passwordResetToken < Date.now()] *)
Definition not_user_or_token_lt_now (env : Env) (user : option UserRecord)
  : bool :=
  match user with
  | None => true
  | Some u => JS.lt (passwordResetToken u) (Date_now env)
  end.

(** The callback of [User.findOne] in [getReset]. *)
Definition getReset_findOne_cb (env : Env)
  (r : option JS.Error * option UserRecord) : M unit :=
  let (err, user) := r in
  match err with
  | Some e => next e
  | None =>
      if not_user_or_token_lt_now env user
      then res_send 403
             (Text "Password reset token is invalid or has expired.")
      else res_send 200 (Text "Password reset token is valid.")
  end.

Definition getReset (env : Env) (req : Request) : M unit :=
  if isAuthenticated req
  then res_send 401 (Text "You are already logged in.")
  else
    r <- User_findOne env (ByToken (params_token req));;
    getReset_findOne_cb env r.

(* ================================================================== *)
(** ** POST /reset/:token *)

Definition postReset_errors (req : Request) : list (string * string) :=
  (if len_min 4 (body_password req) then []
   else [("password", "Password must be at least 4 characters long.")])
  ++
  (if String.eqb (body_confirmPassword req) (body_password req) then []
   else [("confirmPassword", "Passwords must match.")]).

(** The final callback of the waterfall. *)
Definition postReset_final (err : option JS.Error) : M unit :=
  match err with
  | Some e => next e
  | None => res_send 500 (Text "Something went terribly wrong")
  end.

(** First task, from the callback of [User.findOne] on. *)
Definition resetPassword_cb (env : Env) (req : Request)
  (r : option JS.Error * option UserRecord)
  (done : option JS.Error -> option UserRecord -> M unit) : M unit :=
  let (err, user) := r in
  match err with
  | Some e => next e;; done None user
  | None =>
      (if not_user_or_token_lt_now env user
       then done (Some (JS.mkError "User not found")) None
       else ret tt);;
      match user with
      | None =>
          throw (JS.TypeError "Cannot set property 'password' of null")
      | Some u =>
          let u' := mkUser (email u) (body_password req) None None in
          serr <- user_save env u';;
          match serr with
          | Some e => next e
          | None =>
              lerr <- req_logIn env u';;
              done lerr (Some u')
          end
      end
  end.

(** Second task. *)
Definition sendResetPasswordEmail (env : Env) (user : option UserRecord)
  (done : option JS.Error -> M unit) : M unit :=
  match user with
  | None =>
      throw (JS.TypeError "Cannot read property 'email' of undefined")
  | Some u =>
      let mailOptions :=
        mkMail (email u) "service@cooper.com"
               "Your password has been changed"
               ("Hello," ++ nl ++ nl
                ++ "This is a confirmation that the password for your account "
                ++ email u ++ " has just been changed." ++ nl) in
      err <- transporter_sendMail env mailOptions;;
      res_send 200 (Text "Success! Your password has been changed.");;
      done err
  end.

(** The handler from the callback of [User.findOne] on, with the
    waterfall's wiring. *)
Definition postReset_findOne_cb (env : Env) (req : Request)
  (r : option JS.Error * option UserRecord) : M unit :=
  resetPassword_cb env req r (fun err user =>
    waterfall_next 1 postReset_final err
      (sendResetPasswordEmail env user (fun err =>
         waterfall_next 2 postReset_final err (postReset_final None)))).

Definition postReset (env : Env) (req : Request) : M unit :=
  let errors := postReset_errors req in
  match errors with
  | _ :: _ => res_send 400 (ValidationErrors errors)
  | [] =>
      r <- User_findOne env (ByToken (params_token req));;
      postReset_findOne_cb env req r
  end.

(* ================================================================== *)
(** ** POST /forgot *)

Section Forgot.

(** validator.js: [isEmail] and [normalizeEmail], used through
    express-validator. *)
Variable isEmail : string -> bool.
Variable normalizeEmail : string -> string.

Definition forgot_errors (req : Request) : list (string * string) :=
  if isEmail (body_email req) then []
  else [("email", "Please enter a valid email address.")].

(** [req.sanitize("email").normalizeEmail(...)] rewrites [req.body.email]. *)
Definition sanitize_email (req : Request) : Request :=
  mkRequest (isAuthenticated req) (params_token req)
            (normalizeEmail (body_email req))
            (body_password req) (body_confirmPassword req)
            (headers_host req).

Definition acknowledgment (address : string) : Body :=
  Text ("An e-mail has been sent to " ++ address
        ++ " with further instructions.").

(** The final callback of the waterfall. *)
Definition forgot_final (req : Request) (err : option JS.Error) : M unit :=
  match err with
  | Some e =>
      if String.eqb (JS.message e) "User not found"
      then res_send 200 (acknowledgment (body_email req))
      else next e
  | None => res_send 500 (Text "Something went terribly wrong")
  end.

(** First task. *)
Definition createRandomToken (env : Env)
  (done : option JS.Error -> string -> M unit) : M unit :=
  r <- crypto_randomBytes env 16;;
  let (err, buf) := r in
  match buf with
  | None =>
      throw (JS.TypeError "Cannot read property 'toString' of undefined")
  | Some b => done err (JS.Buffer_toString_hex b)
  end.

(** Second task, from the callback of [User.findOne] on. *)
Definition setRandomToken_cb (env : Env) (token : string)
  (r : option JS.Error * option UserRecord)
  (done : option JS.Error -> option UserRecord -> M unit) : M unit :=
  let (err, user) := r in
  match err with
  | Some e => done (Some e) None
  | None =>
      match user with
      | None =>
          done (Some (JS.mkError "User not found")) None;;
          throw (JS.TypeError
                   "Cannot set property 'passwordResetToken' of null")
      | Some u =>
          let u' := mkUser (email u) (password u) (Some token)
                           (Some (Date_now env + 3600000)) in
          serr <- user_save env u';;
          done serr (Some u')
      end
  end.

(** Third task. *)
Definition sendForgotPasswordEmail (env : Env) (req : Request)
  (token : string) (user : option UserRecord)
  (done : option JS.Error -> M unit) : M unit :=
  match user with
  | None =>
      throw (JS.TypeError "Cannot read property 'email' of undefined")
  | Some u =>
      let indent := "          " in
      let mailOptions :=
        mkMail (email u) "service@cooper.com"
               "Reset your password on Cooper"
               ("You are receiving this email because you (or someone else) have requested the reset of the password for your account."
                ++ nl ++ nl ++ nl ++ indent
                ++ "Please click on the following link, or paste this into your browser to complete the process:"
                ++ nl ++ nl ++ nl ++ indent
                ++ "http://" ++ headers_host req ++ "/reset/" ++ token
                ++ nl ++ nl ++ nl ++ indent
                ++ "If you did not request this, please ignore this email and your password will remain unchanged."
                ++ nl) in
      err <- transporter_sendMail env mailOptions;;
      res_send 200 (acknowledgment (email u));;
      done err
  end.

(** The handler from the callback of [User.findOne] on; [req] is the
    request after [sanitize_email]. *)
Definition forgot_findOne_cb (env : Env) (req : Request) (token : string)
  (r : option JS.Error * option UserRecord) : M unit :=
  setRandomToken_cb env token r (fun err user =>
    waterfall_next 2 (forgot_final req) err
      (sendForgotPasswordEmail env req token user (fun err =>
         waterfall_next 3 (forgot_final req) err
           (forgot_final req None)))).

Definition forgot (env : Env) (req0 : Request) : M unit :=
  let errors := forgot_errors req0 in
  let req := sanitize_email req0 in
  match errors with
  | _ :: _ => res_send 400 (ValidationErrors errors)
  | [] =>
      createRandomToken env (fun err token =>
        waterfall_next 1 (forgot_final req) err
          (r <- User_findOne env (ByEmail (body_email req));;
           forgot_findOne_cb env req token r))
  end.

End Forgot.

(* ================================================================== *)
(** ** Runs, outcomes and schedules *)

(** The state in which a handler leaves a request that started on the
    directory [dir]. *)
Definition run (h : M unit) (dir : list UserRecord) : St :=
  snd (h (begin_request dir)).

(** The outcomes of the three operations, as the client or the framework
    sees them.  Redemption reports an unknown or rejected token by ending
    the waterfall with the error "User not found", which goes to [next]. *)
Definition AlreadyAuthenticated (st : St) : Prop :=
  response st = Some (401, Text "You are already logged in.").

Definition verify_TokenInvalidOrExpired (st : St) : Prop :=
  response st =
  Some (403, Text "Password reset token is invalid or has expired.").

Definition verify_succeeds (st : St) : Prop :=
  response st = Some (200, Text "Password reset token is valid.").

Definition InvalidInput (st : St) : Prop :=
  exists errors,
    errors <> [] /\ response st = Some (400, ValidationErrors errors).

Definition redeem_succeeds (st : St) : Prop :=
  response st = Some (200, Text "Success! Your password has been changed.").

Definition redeem_TokenInvalidOrExpired (st : St) : Prop :=
  nexts st = [JS.mkError "User not found"] /\ response st = None.

Definition exactly_one_succeeds (st1 st2 : St) : Prop :=
  (redeem_succeeds st1 /\ redeem_TokenInvalidOrExpired st2)
  \/ (redeem_TokenInvalidOrExpired st1 /\ redeem_succeeds st2).

(** One hour, in the milliseconds of [Date.now()]. *)
Definition one_hour : Z := 60 * 60 * 1000.

(** The reset token and its expiry are both set or both absent. *)
Definition both_or_neither (u : UserRecord) : bool :=
  match passwordResetToken u, passwordResetExpires u with
  | Some _, Some _ => true
  | None, None => true
  | _, _ => false
  end.

(** A record with no reset pending, as [signup] creates it. *)
Definition no_reset (u : UserRecord) : bool :=
  match passwordResetToken u, passwordResetExpires u with
  | None, None => true
  | _, _ => false
  end.

(** The token is the key of at most one address of the directory: every
    record that carries it has the address of the one the lookup finds. *)
Definition token_is_key (t : string) (dir : list UserRecord) : bool :=
  match lookup (ByToken t) dir with
  | None => true
  | Some u =>
      forallb (fun r => negb (matches (ByToken t) r)
                        || String.eqb (email r) (email u)) dir
  end.

(** Node runs a callback to its end before it starts another, so two
    requests interleave only where a handler waits for a collaborator.
    [postReset] waits for [User.findOne] between its validation and its
    callback.  Both schedules below are for requests that pass the
    validation. *)

(** One request after the other: the second query is answered after the
    first callback has run. *)
Definition postReset_one_after_the_other
  (env1 : Env) (req1 : Request) (env2 : Env) (req2 : Request)
  (dir : list UserRecord) : St * St :=
  let st1 := run (postReset env1 req1) dir in
  let st2 := run (postReset env2 req2) (store st1) in
  (st1, st2).

(** Both queries are answered on the directory as it is at first, then the
    callback of the first request runs, then the callback of the second,
    which sees the directory the first one left. *)
Definition postReset_lookups_first
  (env1 : Env) (req1 : Request) (env2 : Env) (req2 : Request)
  (dir : list UserRecord) : St * St :=
  let q1 := User_findOne env1 (ByToken (params_token req1))
                         (begin_request dir) in
  let q2 := User_findOne env2 (ByToken (params_token req2))
                         (begin_request dir) in
  match q1, q2 with
  | (inl r1, st1), (inl r2, st2) =>
      let st1' := snd (postReset_findOne_cb env1 req1 r1 st1) in
      let st2' := snd (postReset_findOne_cb env2 req2 r2
                         (set_store (store st1') st2)) in
      (st1', st2')
  | (_, st1), (_, st2) => (st1, st2)
  end.

(** The computation [m] keeps the property [P] of the directory. *)
Definition keeps (P : list UserRecord -> Prop) {A : Type} (m : M A)
  : Prop :=
  forall st, P (store st) -> P (store (snd (m st))).

(** *** Reachable directories

    A directory is reachable from one in which no reset is pending by the
    three handlers, run whole, and by the callbacks of [forgot] and
    [postReset] run on the answer [r] of a query made earlier, whatever
    that answer was. *)
Section Reachable.

Variable isEmail : string -> bool.
Variable normalizeEmail : string -> string.

Inductive reachable : list UserRecord -> Prop :=
| reach_initial dir :
    forallb no_reset dir = true -> reachable dir
| reach_forgot env req dir :
    reachable dir ->
    reachable (store (run (forgot isEmail normalizeEmail env req) dir))
| reach_getReset env req dir :
    reachable dir -> reachable (store (run (getReset env req) dir))
| reach_postReset env req dir :
    reachable dir -> reachable (store (run (postReset env req) dir))
| reach_forgot_cb env req token r dir :
    reachable dir ->
    reachable (store (run (forgot_findOne_cb env req token r) dir))
| reach_postReset_cb env req r dir :
    reachable dir ->
    reachable (store (run (postReset_findOne_cb env req r) dir)).

End Reachable.

(* ================================================================== *)
(** ** Concrete requests and directories used below *)

Module Sample.

(** A stand-in for validator.js: an address has an at sign, and is left
    as it is. *)
Definition isEmail (s : string) : bool :=
  match index 0 "@" s with
  | Some _ => true
  | None => false
  end.

Definition normalizeEmail (s : string) : string := s.

Definition alice : UserRecord :=
  mkUser "alice@example.com" "correct horse" None None.

Definition bob : UserRecord := mkUser "bob@example.com" "battery" None None.

Definition dir0 : list UserRecord := [alice; bob].

(** Sixteen bytes from the random source. *)
Definition bytes (n : nat) : Byte.byte :=
  nth n [Byte.x9f; Byte.x86; Byte.xd0; Byte.x81; Byte.x88; Byte.x4c;
         Byte.x7d; Byte.x65; Byte.x9a; Byte.x2f; Byte.xea; Byte.xa0;
         Byte.xc5; Byte.x5a; Byte.xd0; Byte.x15] Byte.x00.

Definition token : string := "9f86d081884c7d659a2feaa0c55ad015".

(** The time of issuance, in milliseconds. *)
Definition T : Z := 1525132800000.

(** All collaborators answer without an error. *)
Definition env_ok (now : Z) : Env :=
  mkEnv now (inr bytes) None None None None.

(** The mail transport fails, all else works. *)
Definition env_mail_fails (now : Z) : Env :=
  mkEnv now (inr bytes) None None None
        (Some (JS.mkError "connect ECONNREFUSED")).

(** The random source fails. *)
Definition env_no_entropy (now : Z) : Env :=
  mkEnv now (inl (JS.mkError "PRNG not seeded")) None None None None.

Definition forgot_request (address : string) : Request :=
  mkRequest false EmptyString address EmptyString EmptyString
            "cooper.example".

Definition verify_request (t : string) : Request :=
  mkRequest false t EmptyString EmptyString EmptyString "cooper.example".

Definition redeem_request (authenticated : bool) (t pw confirm : string)
  : Request :=
  mkRequest authenticated t EmptyString pw confirm "cooper.example".

(** The directory after alice asked for a reset at time [T]. *)
Definition dir1 : list UserRecord :=
  store (run (forgot isEmail normalizeEmail (env_ok T)
                     (forgot_request "alice@example.com")) dir0).

End Sample.

(* ================================================================== *)
(** ** The handlers of accounts: login, signup, password update *)

(** The byte that two hexadecimal digits stand for. *)
Definition byte_of_hex (hi lo : ascii) : option Byte.byte :=
  match JS.digit_val 16 hi, JS.digit_val 16 lo with
  | Some h, Some l => Byte.of_N (Z.to_N (16 * h + l))
  | _, _ => None
  end.

(** Reads a string of hexadecimal digits back, two digits a byte. *)
Fixpoint bytes_of_hex (s : string) : option (list Byte.byte) :=
  match s with
  | EmptyString => Some []
  | String hi (String lo rest) =>
      match byte_of_hex hi lo, bytes_of_hex rest with
      | Some b, Some bs => Some (b :: bs)
      | _, _ => None
      end
  | String _ EmptyString => None
  end.

(** What the local strategy of passport calls [authenticate]'s callback
    with: [(err, user, info)]; the third part is [info.message], when
    there is an [info]. *)
Definition AuthResult : Type :=
  (option JS.Error * option UserRecord * option string)%type.

Section Accounts.

(** validator.js through express-validator, as for [forgot]; [notEmpty]
    is express-validator's own check. *)
Variable isEmail : string -> bool.
Variable normalizeEmail : string -> string.
Variable notEmpty : string -> bool.

(** What [save] of models/User makes of the directory for a user made by
    [new User(...)]; models/User is not among the sources and the
    specification does not describe it, so it is left open. *)
Variable create : UserRecord -> list UserRecord -> list UserRecord.

(** [user.save((err) => ...)] for a user made by [new User(...)]. *)
Definition user_create (env : Env) (u : UserRecord)
  : M (option JS.Error) :=
  call CallSave;;
  fun st =>
    match save_err env with
    | Some e => (inl (Some e), st)
    | None => (inl None, set_store (create u (store st)) st)
    end.

(** *** POST /login *)

Definition login_errors (req : Request) : list (string * string) :=
  (if isEmail (body_email req) then []
   else [("email", "Email is not valid")])
  ++
  (if notEmpty (body_password req) then []
   else [("password", "Password cannot be blank")]).

(** The callback given to [passport.authenticate]. *)
Definition login_authenticate_cb (env : Env) (auth : AuthResult)
  : M unit :=
  let '(err, user, info) := auth in
  match err with
  | Some e => next e
  | None =>
      match user with
      | None =>
          match info with
          | Some msg => res_send 400 (Text msg)
          | None =>
              throw (JS.TypeError
                       "Cannot read property 'message' of undefined")
          end
      | Some u =>
          lerr <- req_logIn env u;;
          match lerr with
          | Some e => next e
          | None => res_send 200 (Text "Success! You are logged in.")
          end
      end
  end.

Definition login (auth : AuthResult) (env : Env) (req : Request)
  : M unit :=
  let errors := login_errors req in
  match errors with
  | _ :: _ => res_send 400 (ValidationErrors errors)
  | [] => login_authenticate_cb env auth
  end.

(** *** POST /signup *)

Definition signup_errors (req : Request) : list (string * string) :=
  (if isEmail (body_email req) then []
   else [("email", "Email is not valid")])
  ++
  (if len_min 4 (body_password req) then []
   else [("password", "Password must be at least 4 characters long")])
  ++
  (if String.eqb (body_confirmPassword req) (body_password req) then []
   else [("confirmPassword", "Passwords do not match")]).

(** The callback of [User.findOne] in [signup]; [user] is the
    [new User(...)] made before the lookup. *)
Definition signup_findOne_cb (env : Env) (user : UserRecord)
  (r : option JS.Error * option UserRecord) : M unit :=
  let (err, existingUser) := r in
  (match err with
   | Some e => next e
   | None => ret tt
   end);;
  match existingUser with
  | Some _ =>
      res_send 400
        (Text "Account with that email address already exists.")
  | None =>
      serr <- user_create env user;;
      match serr with
      | Some e => next e
      | None =>
          lerr <- req_logIn env user;;
          match lerr with
          | Some e => next e
          | None => res_send 201 (Text "Success! User registered.")
          end
      end
  end.

Definition signup (env : Env) (req0 : Request) : M unit :=
  let errors := signup_errors req0 in
  let req := sanitize_email normalizeEmail req0 in
  match errors with
  | _ :: _ => res_send 400 (ValidationErrors errors)
  | [] =>
      let user := mkUser (body_email req) (body_password req) None None in
      r <- User_findOne env (ByEmail (body_email req));;
      signup_findOne_cb env user r
  end.

(** *** POST /account/password *)

Definition postUpdatePassword_errors (req : Request)
  : list (string * string) :=
  (if len_min 4 (body_password req) then []
   else [("password", "Password must be at least 4 characters long")])
  ++
  (if String.eqb (body_confirmPassword req) (body_password req) then []
   else [("confirmPassword", "Passwords do not match")]).

(** The callback of [User.findOne] in [postUpdatePassword]. *)
Definition postUpdatePassword_findOne_cb (env : Env) (req : Request)
  (r : option JS.Error * option UserRecord) : M unit :=
  let (err, user) := r in
  match err with
  | Some e => next e
  | None =>
      match user with
      | None =>
          throw (JS.TypeError "Cannot set property 'password' of null")
      | Some u =>
          let u' := mkUser (email u) (body_password req)
                           (passwordResetToken u)
                           (passwordResetExpires u) in
          serr <- user_save env u';;
          match serr with
          | Some e => next e
          | None => res_send 200 (Text "Password has been changed.")
          end
      end
  end.

(** [req_user] is [req.user], the user of the session, if there is one. *)
Definition postUpdatePassword (env : Env) (req_user : option UserRecord)
  (req : Request) : M unit :=
  let errors := postUpdatePassword_errors req in
  match errors with
  | _ :: _ => res_send 400 (ValidationErrors errors)
  | [] =>
      match req_user with
      | None =>
          throw (JS.TypeError "Cannot read property 'email' of undefined")
      | Some me =>
          r <- User_findOne env (ByEmail (email me));;
          postUpdatePassword_findOne_cb env req r
      end
  end.

End Accounts.

(** Requests and collaborators for the account handlers. *)
Module SampleAccounts.

Definition notEmpty (s : string) : bool :=
  negb (String.eqb s EmptyString).

(** A directory that keeps new users at its end. *)
Definition create (u : UserRecord) (dir : list UserRecord)
  : list UserRecord :=
  dir ++ [u].

Definition account_request (address pw confirm : string) : Request :=
  mkRequest false EmptyString address pw confirm "cooper.example".

(** Sixteen other bytes from the random source. *)
Definition bytes2 (n : nat) : Byte.byte :=
  nth n [Byte.x2c; Byte.xf2; Byte.x4d; Byte.xba; Byte.x5f; Byte.xb0;
         Byte.xa3; Byte.x0e; Byte.x26; Byte.xe8; Byte.x3b; Byte.x2a;
         Byte.xc5; Byte.xb9; Byte.xe2; Byte.x9e] Byte.x00.

Definition token2 : string := "2cf24dba5fb0a30e26e83b2ac5b9e29e".

Definition env_ok2 (now : Z) : Env :=
  mkEnv now (inr bytes2) None None None None.

Definition env_find_fails (now : Z) : Env :=
  mkEnv now (inr Sample.bytes)
        (Some (JS.mkError "ServiceUnavailable")) None None None.

Definition env_save_fails (now : Z) : Env :=
  mkEnv now (inr Sample.bytes) None
        (Some (JS.mkError "ServiceUnavailable")) None None.

Definition env_logIn_fails (now : Z) : Env :=
  mkEnv now (inr Sample.bytes) None None
        (Some (JS.mkError "Failed to serialize user into session")) None.

End SampleAccounts.

(* ================================================================== *)
(** * Properties *)

(** ** The directory *)

Lemma lookup_In (q : Query) (dir : list UserRecord) (u : UserRecord) :
  lookup q dir = Some u -> In u dir.
Proof. intros H. apply find_some in H. tauto. Qed.

Lemma lookup_ByEmail_email (e : string) (dir : list UserRecord)
  (u : UserRecord) :
  lookup (ByEmail e) dir = Some u -> email u = e.
Proof.
  intros H. apply find_some in H. destruct H as [_ H].
  simpl in H. now apply String.eqb_eq.
Qed.

Lemma lookup_ByToken_token (t : string) (dir : list UserRecord)
  (u : UserRecord) :
  lookup (ByToken t) dir = Some u -> passwordResetToken u = Some t.
Proof.
  intros H. apply find_some in H. destruct H as [_ H]. simpl in H.
  destruct (passwordResetToken u) as [t'|]; [|discriminate].
  apply String.eqb_eq in H. now subst.
Qed.

Lemma lookup_None_intro (q : Query) (dir : list UserRecord) :
  (forall u, In u dir -> matches q u = false) -> lookup q dir = None.
Proof.
  unfold lookup. induction dir as [|r dir IH]; intros H; simpl.
  - reflexivity.
  - rewrite (H r (or_introl eq_refl)). apply IH.
    intros u Hu. apply H. now right.
Qed.

Lemma In_update (u r : UserRecord) (dir : list UserRecord) :
  In r (update u dir) ->
  r = u \/ (In r dir /\ email r <> email u).
Proof.
  unfold update. intros H. apply in_map_iff in H.
  destruct H as [x [Hx Hin]].
  destruct (String.eqb_spec (email x) (email u)) as [E|E].
  - left. now symmetry.
  - right. subst r. now split.
Qed.

(** After [save] the record is the one found under its address. *)
Lemma lookup_update_email (u : UserRecord) (dir : list UserRecord) :
  (exists r, In r dir /\ email r = email u) ->
  lookup (ByEmail (email u)) (update u dir) = Some u.
Proof.
  unfold lookup, update.
  induction dir as [|x dir IH]; intros [r [Hin Hr]].
  - destruct Hin.
  - simpl. destruct (String.eqb_spec (email x) (email u)) as [E|E].
    + simpl. now rewrite String.eqb_refl.
    + simpl. apply String.eqb_neq in E. rewrite E.
      apply IH. destruct Hin as [->|Hin]; [|now exists r].
      apply String.eqb_neq in E. contradiction.
Qed.

(** Once the holder of a token is saved without it, no record carries
    the token. *)
Lemma lookup_ByToken_update_cleared (t : string) (u u' : UserRecord)
  (dir : list UserRecord) :
  token_is_key t dir = true ->
  lookup (ByToken t) dir = Some u ->
  email u' = email u -> passwordResetToken u' = None ->
  lookup (ByToken t) (update u' dir) = None.
Proof.
  unfold token_is_key. intros Hkey Hl He Hnone. rewrite Hl in Hkey.
  apply lookup_None_intro.
  intros r Hr. apply In_update in Hr. destruct Hr as [->|[Hr Hne]].
  - simpl. now rewrite Hnone.
  - rewrite forallb_forall in Hkey. specialize (Hkey r Hr).
    destruct (matches (ByToken t) r); [|reflexivity].
    simpl in Hkey. apply String.eqb_eq in Hkey.
    exfalso. apply Hne. now rewrite He.
Qed.

Lemma Forall_update (P : UserRecord -> Prop) (u : UserRecord)
  (dir : list UserRecord) :
  P u -> Forall P dir -> Forall P (update u dir).
Proof.
  intros Hu Hd. unfold update. apply Forall_map.
  eapply Forall_impl; [|exact Hd].
  intros r Hr. now destruct (String.eqb (email r) (email u)).
Qed.

(** ** The token *)

Lemma Buffer_toString_hex_length (buf : list Byte.byte) :
  String.length (JS.Buffer_toString_hex buf) = (2 * List.length buf)%nat.
Proof.
  induction buf as [|b buf IH]; simpl.
  - reflexivity.
  - rewrite IH. lia.
Qed.

Lemma Buffer_toString_hex_all_hex (buf : list Byte.byte) :
  JS.all_hex (JS.Buffer_toString_hex buf) = true.
Proof.
  induction buf as [|b buf IH].
  - reflexivity.
  - change (JS.all_hex
              (String (JS.hex_digit (Byte.to_N b / 16))
                 (String (JS.hex_digit (Byte.to_N b mod 16))
                    (JS.Buffer_toString_hex buf))) = true).
    cbn [JS.all_hex]. rewrite IH.
    destruct b; vm_compute; reflexivity.
Qed.

(** The token that [createRandomToken] hands on has 32 characters, all of
    them hexadecimal digits, and encodes the 16 bytes it drew. *)
Lemma random_token_32_hex (src : nat -> Byte.byte) :
  let buf := map src (seq 0 16) in
  List.length buf = 16%nat
  /\ String.length (JS.Buffer_toString_hex buf) = 32%nat
  /\ JS.all_hex (JS.Buffer_toString_hex buf) = true.
Proof.
  cbv zeta. split; [|split].
  - now rewrite length_map, length_seq.
  - rewrite Buffer_toString_hex_length, length_map, length_seq. reflexivity.
  - apply Buffer_toString_hex_all_hex.
Qed.

(** ** Running a handler *)

(** Unfolds the handlers and the monad, leaving the directory operations
    and the string functions folded. *)
Ltac step_handler :=
  cbv beta iota zeta delta
    [run getReset getReset_findOne_cb postReset postReset_findOne_cb
     postReset_final resetPassword_cb sendResetPasswordEmail
     forgot forgot_findOne_cb forgot_final createRandomToken
     setRandomToken_cb sendForgotPasswordEmail forgot_errors
     sanitize_email
     User_findOne user_save req_logIn transporter_sendMail
     crypto_randomBytes onlyOnce waterfall_next
     bind ret throw call res_send next begin_request
     set_store set_response set_nexts set_mails set_session set_calls
     set_called
     store response nexts mails session calls called
     Date_now random_source findOne_err save_err logIn_err sendMail_err
     isAuthenticated params_token body_email body_password
     body_confirmPassword headers_host JS.message
     fst snd existsb Nat.eqb orb app].

Lemma postReset_errors_nil (req : Request) :
  postReset_errors req = [] <->
  (4 <= String.length (body_password req))%nat
  /\ body_confirmPassword req = body_password req.
Proof.
  unfold postReset_errors, len_min.
  destruct (Nat.leb_spec 4 (String.length (body_password req)));
    destruct (String.eqb_spec (body_confirmPassword req)
                              (body_password req));
    simpl; split; intros G; try discriminate; try tauto;
    destruct G; try lia; contradiction.
Qed.

(** C6: a redemption whose new password has fewer than 4 characters, or
    whose confirmation differs from it, is answered with the validation
    errors (status 400) before any collaborator is called: no storage
    call, no mail, and the directory, pending tokens included, is as it
    was. *)
Theorem postReset_invalid_input_fails_fast
  (env : Env) (req : Request) (dir : list UserRecord) :
  (String.length (body_password req) < 4)%nat
  \/ body_confirmPassword req <> body_password req ->
  postReset env req (begin_request dir)
  = (inl tt,
     set_response (Some (400, ValidationErrors (postReset_errors req)))
                  (begin_request dir))
  /\ InvalidInput (run (postReset env req) dir)
  /\ calls (run (postReset env req) dir) = []
  /\ mails (run (postReset env req) dir) = []
  /\ store (run (postReset env req) dir) = dir.
Proof.
  intros H.
  assert (E : postReset_errors req <> []).
  { intros E. apply postReset_errors_nil in E. destruct E as [E1 E2].
    destruct H as [H|H]; [lia | contradiction]. }
  assert (R : postReset env req (begin_request dir)
              = (inl tt,
                 set_response
                   (Some (400, ValidationErrors (postReset_errors req)))
                   (begin_request dir))).
  { unfold postReset. cbv zeta.
    destruct (postReset_errors req) as [|e errors].
    - contradiction.
    - reflexivity. }
  split; [exact R|]. unfold run, InvalidInput. rewrite R. simpl.
  repeat split. now exists (postReset_errors req).
Qed.

Lemma postReset_invalid_input_fails_fast_witness :
  let env := Sample.env_ok (Sample.T + 60000) in
  let req := Sample.redeem_request false Sample.token "abc" "abcd" in
  ((String.length (body_password req) < 4)%nat
   \/ body_confirmPassword req <> body_password req)
  /\ InvalidInput (run (postReset env req) Sample.dir1)
  /\ calls (run (postReset env req) Sample.dir1) = []
  /\ store (run (postReset env req) Sample.dir1) = Sample.dir1.
Proof.
  cbv zeta.
  assert (H : (String.length "abc" < 4)%nat
              \/ "abcd" <> "abc") by (left; simpl; lia).
  split; [exact H|].
  pose proof (postReset_invalid_input_fails_fast
                (Sample.env_ok (Sample.T + 60000))
                (Sample.redeem_request false Sample.token "abc" "abcd")
                Sample.dir1 H) as P.
  tauto.
Defined.

(** ** Redemption *)

(** What a redemption that finds a record persists: the record with the
    new password and with neither token nor expiry.  Whether the guard
    [!user || user.passwordResetToken < Date.now()] held makes no
    difference to it. *)
Lemma postReset_found_store
  (env : Env) (req : Request) (dir : list UserRecord) (u : UserRecord) :
  postReset_errors req = [] ->
  findOne_err env = None -> save_err env = None ->
  lookup (ByToken (params_token req)) dir = Some u ->
  store (run (postReset env req) dir)
  = update (mkUser (email u) (body_password req) None None) dir.
Proof.
  intros Hv Hf Hs Hl. unfold run, postReset. rewrite Hv. cbv zeta.
  destruct env as [now rnd ferr serr lerr merr], req as [au t e pw cpw h].
  simpl in Hf, Hs, Hl. subst ferr serr.
  step_handler. rewrite Hl.
  destruct (not_user_or_token_lt_now _ _); destruct lerr, merr;
    reflexivity.
Qed.

(** C10: [postReset] never asks whether the caller is logged in.  For a
    caller with a session, [getReset] answers 401 "You are already logged
    in." and changes nothing, while [postReset] with a token that matches
    a record stores the new password for it. *)
Theorem postReset_has_no_session_check
  (env : Env) (req : Request) (dir : list UserRecord) (u : UserRecord) :
  isAuthenticated req = true ->
  postReset_errors req = [] ->
  findOne_err env = None -> save_err env = None ->
  lookup (ByToken (params_token req)) dir = Some u ->
  AlreadyAuthenticated (run (getReset env req) dir)
  /\ store (run (getReset env req) dir) = dir
  /\ lookup (ByEmail (email u)) (store (run (postReset env req) dir))
     = Some (mkUser (email u) (body_password req) None None).
Proof.
  intros Ha Hv Hf Hs Hl. split; [|split].
  - unfold AlreadyAuthenticated, run, getReset. rewrite Ha. reflexivity.
  - unfold run, getReset. rewrite Ha. reflexivity.
  - rewrite (postReset_found_store env req dir u Hv Hf Hs Hl).
    apply (lookup_update_email
             (mkUser (email u) (body_password req) None None)).
    exists u. split; [|reflexivity]. now apply lookup_In in Hl.
Qed.

Lemma postReset_has_no_session_check_witness :
  let env := Sample.env_ok (Sample.T + 60000) in
  let req := Sample.redeem_request true Sample.token "tr0ub4dor" "tr0ub4dor" in
  AlreadyAuthenticated (run (getReset env req) Sample.dir1)
  /\ store (run (getReset env req) Sample.dir1) = Sample.dir1
  /\ lookup (ByEmail "alice@example.com")
            (store (run (postReset env req) Sample.dir1))
     = Some (mkUser "alice@example.com" "tr0ub4dor" None None).
Proof.
  apply (postReset_has_no_session_check
           (Sample.env_ok (Sample.T + 60000))
           (Sample.redeem_request true Sample.token "tr0ub4dor" "tr0ub4dor")
           Sample.dir1
           (mkUser "alice@example.com" "correct horse"
                   (Some Sample.token) (Some (Sample.T + 3600000))));
    reflexivity.
Defined.

(** ** Issuance *)

Section ForgotProperties.

Variable isEmail : string -> bool.
Variable normalizeEmail : string -> string.

(** What [forgot] does for an address that is in the directory, when the
    random source, the lookup and the save work. *)
Lemma forgot_present
  (env : Env) (req : Request) (dir : list UserRecord) (u : UserRecord)
  (src : nat -> Byte.byte) :
  isEmail (body_email req) = true ->
  random_source env = inr src ->
  findOne_err env = None -> save_err env = None ->
  lookup (ByEmail (normalizeEmail (body_email req))) dir = Some u ->
  let st := run (forgot isEmail normalizeEmail env req) dir in
  let u' := mkUser (email u) (password u)
                   (Some (JS.Buffer_toString_hex (map src (seq 0 16))))
                   (Some (Date_now env + 3600000)) in
  store st = update u' dir
  /\ response st = Some (200, acknowledgment (email u))
  /\ List.length (mails st) = 1%nat
  /\ nexts st = match sendMail_err env with
                | Some e =>
                    if String.eqb (JS.message e) "User not found"
                    then [] else [e]
                | None => []
                end.
Proof.
  intros He Hr Hf Hs Hl. unfold run, forgot, forgot_errors.
  rewrite He. cbv zeta iota.
  destruct env as [now rnd ferr serr lerr merr], req as [au t e pw cpw h].
  simpl in He, Hr, Hf, Hs, Hl. subst rnd ferr serr.
  step_handler. rewrite Hl. destruct merr as [[msg]|].
  - step_handler.
    destruct (String.eqb msg "User not found"); repeat split; reflexivity.
  - repeat split; reflexivity.
Qed.

(** What [forgot] does for an address that is not in the directory, when
    the random source and the lookup work: it acknowledges, then the
    callback of [User.findOne] throws on the missing user. *)
Lemma forgot_absent
  (env : Env) (req : Request) (dir : list UserRecord)
  (src : nat -> Byte.byte) :
  isEmail (body_email req) = true ->
  random_source env = inr src ->
  findOne_err env = None ->
  lookup (ByEmail (normalizeEmail (body_email req))) dir = None ->
  forgot isEmail normalizeEmail env req (begin_request dir)
  = (inr (JS.TypeError "Cannot set property 'passwordResetToken' of null"),
     mkSt dir
          (Some (200, acknowledgment (normalizeEmail (body_email req))))
          [] [] None [CallRandomBytes; CallFindOne] [2%nat; 1%nat]).
Proof.
  intros He Hr Hf Hl. unfold forgot, forgot_errors.
  rewrite He. cbv zeta iota.
  destruct env as [now rnd ferr serr lerr merr], req as [au t e pw cpw h].
  simpl in He, Hr, Hf, Hl. subst rnd ferr.
  step_handler. rewrite Hl. vm_compute String.eqb. reflexivity.
Qed.

(** C5: for an address that is in the directory, once [forgot] has got
    its token and saved the record, the record found under that address
    has both the token (32 hexadecimal characters) and the expiry set, and
    the expiry is the time of issuance plus one hour. *)
Theorem forgot_stores_token_and_expiry
  (env : Env) (req : Request) (dir : list UserRecord) (u : UserRecord)
  (src : nat -> Byte.byte) :
  isEmail (body_email req) = true ->
  random_source env = inr src ->
  findOne_err env = None -> save_err env = None ->
  lookup (ByEmail (normalizeEmail (body_email req))) dir = Some u ->
  let st := run (forgot isEmail normalizeEmail env req) dir in
  let token := JS.Buffer_toString_hex (map src (seq 0 16)) in
  lookup (ByEmail (normalizeEmail (body_email req))) (store st)
  = Some (mkUser (email u) (password u)
                 (Some token) (Some (Date_now env + one_hour)))
  /\ String.length token = 32%nat /\ JS.all_hex token = true
  /\ response st = Some (200, acknowledgment (email u)).
Proof.
  intros He Hr Hf Hs Hl.
  destruct (forgot_present env req dir u src He Hr Hf Hs Hl)
    as [Hst [Hresp _]].
  cbv zeta. rewrite Hst, Hresp.
  pose proof (lookup_ByEmail_email _ _ _ Hl) as Eu.
  pose proof (random_token_32_hex src) as [_ [Hlen Hhex]].
  repeat split; try assumption.
  rewrite <- Eu.
  apply (lookup_update_email
           (mkUser (email u) (password u)
              (Some (JS.Buffer_toString_hex (map src (seq 0 16))))
              (Some (Date_now env + 3600000)))).
  exists u. split; [|reflexivity]. now apply lookup_In in Hl.
Qed.

(** C2: for a valid address that is not in the directory, [forgot]
    answers with the same status and text as it does for that address
    when a record has it, 200 "An e-mail has been sent to <address> with
    further instructions.", and it saves nothing and sends no mail: the
    directory is as it was. *)
Theorem forgot_unknown_address_same_acknowledgment
  (env env' : Env) (req : Request) (dir dir' : list UserRecord)
  (u : UserRecord) (src src' : nat -> Byte.byte) :
  isEmail (body_email req) = true ->
  random_source env = inr src -> findOne_err env = None ->
  lookup (ByEmail (normalizeEmail (body_email req))) dir = None ->
  random_source env' = inr src' -> findOne_err env' = None ->
  save_err env' = None ->
  lookup (ByEmail (normalizeEmail (body_email req))) dir' = Some u ->
  let absent := run (forgot isEmail normalizeEmail env req) dir in
  let present := run (forgot isEmail normalizeEmail env' req) dir' in
  response absent
  = Some (200, acknowledgment (normalizeEmail (body_email req)))
  /\ response absent = response present
  /\ store absent = dir
  /\ mails absent = []
  /\ calls absent = [CallRandomBytes; CallFindOne].
Proof.
  intros He Hr Hf Hl Hr' Hf' Hs' Hl'. cbv zeta.
  destruct (forgot_present env' req dir' u src' He Hr' Hf' Hs' Hl')
    as [_ [Hresp _]].
  rewrite Hresp, (lookup_ByEmail_email _ _ _ Hl').
  unfold run. rewrite (forgot_absent env req dir src He Hr Hf Hl).
  repeat split.
Qed.

End ForgotProperties.

Lemma forgot_stores_token_and_expiry_witness :
  let st := run (forgot Sample.isEmail Sample.normalizeEmail
                        (Sample.env_ok Sample.T)
                        (Sample.forgot_request "alice@example.com"))
                Sample.dir0 in
  lookup (ByEmail "alice@example.com") (store st)
  = Some (mkUser "alice@example.com" "correct horse"
                 (Some Sample.token) (Some (Sample.T + one_hour)))
  /\ String.length Sample.token = 32%nat
  /\ JS.all_hex Sample.token = true
  /\ response st = Some (200, acknowledgment "alice@example.com").
Proof.
  apply (forgot_stores_token_and_expiry
           Sample.isEmail Sample.normalizeEmail
           (Sample.env_ok Sample.T)
           (Sample.forgot_request "alice@example.com")
           Sample.dir0 Sample.alice Sample.bytes); reflexivity.
Defined.

Lemma forgot_unknown_address_same_acknowledgment_witness :
  let req := Sample.forgot_request "bob@example.com" in
  let absent := run (forgot Sample.isEmail Sample.normalizeEmail
                            (Sample.env_ok Sample.T) req)
                    [Sample.alice] in
  let present := run (forgot Sample.isEmail Sample.normalizeEmail
                             (Sample.env_ok Sample.T) req)
                     Sample.dir0 in
  response absent = Some (200, acknowledgment "bob@example.com")
  /\ response absent = response present
  /\ store absent = [Sample.alice]
  /\ mails absent = []
  /\ calls absent = [CallRandomBytes; CallFindOne].
Proof.
  apply (forgot_unknown_address_same_acknowledgment
           Sample.isEmail Sample.normalizeEmail
           (Sample.env_ok Sample.T) (Sample.env_ok Sample.T)
           (Sample.forgot_request "bob@example.com")
           [Sample.alice] Sample.dir0 Sample.bob
           Sample.bytes Sample.bytes); reflexivity.
Defined.

(** ** Redeeming once *)

(** A redemption that answers "Success!" passed the validation, found a
    record whose token the guard let through, saved it and opened the
    session. *)
Lemma redeem_succeeds_inv
  (env : Env) (req : Request) (dir : list UserRecord) :
  redeem_succeeds (run (postReset env req) dir) ->
  postReset_errors req = []
  /\ findOne_err env = None /\ save_err env = None
  /\ logIn_err env = None
  /\ exists u,
       lookup (ByToken (params_token req)) dir = Some u
       /\ JS.lt (passwordResetToken u) (Date_now env) = false.
Proof.
  unfold redeem_succeeds, run, postReset. cbv zeta.
  destruct (postReset_errors req) as [|x errors]; [|discriminate].
  destruct env as [now rnd ferr serr lerr merr], req as [au t e pw cpw h].
  step_handler.
  destruct ferr as [fe|]; [discriminate|].
  destruct (lookup (ByToken t) dir) as [u|] eqn:Hl; [|discriminate].
  unfold not_user_or_token_lt_now. step_handler.
  destruct (JS.lt (passwordResetToken u) now) eqn:Hlt;
    destruct serr as [se|]; try discriminate;
    destruct lerr as [le|]; try discriminate.
  intros _. repeat split. now exists u.
Qed.

(** A redemption with a token that no record carries: the waterfall ends
    with the error "User not found", nothing is saved or mailed, and the
    callback then throws on the missing user. *)
Lemma postReset_unknown_token
  (env : Env) (req : Request) (dir : list UserRecord) :
  postReset_errors req = [] -> findOne_err env = None ->
  lookup (ByToken (params_token req)) dir = None ->
  postReset env req (begin_request dir)
  = (inr (JS.TypeError "Cannot set property 'password' of null"),
     mkSt dir None [JS.mkError "User not found"] [] None [CallFindOne]
          [1%nat]).
Proof.
  intros Hv Hf Hl. unfold postReset. rewrite Hv. cbv zeta.
  destruct env as [now rnd ferr serr lerr merr], req as [au t e pw cpw h].
  simpl in Hf, Hl. subst ferr. step_handler. rewrite Hl. reflexivity.
Qed.

(** Whatever the collaborators answer, a redemption with a token that no
    record carries neither succeeds nor changes the directory. *)
Lemma postReset_unknown_token_fails
  (env : Env) (req : Request) (dir : list UserRecord) :
  lookup (ByToken (params_token req)) dir = None ->
  ~ redeem_succeeds (run (postReset env req) dir)
  /\ store (run (postReset env req) dir) = dir.
Proof.
  intros Hl. split.
  - intros H. apply redeem_succeeds_inv in H.
    destruct H as [_ [_ [_ [_ [u [Hu _]]]]]]. congruence.
  - unfold run, postReset. cbv zeta.
    destruct (postReset_errors req) as [|x errors]; [|reflexivity].
    destruct env as [now rnd ferr serr lerr merr],
             req as [au t e pw cpw h].
    simpl in Hl. step_handler. rewrite Hl.
    destruct ferr; reflexivity.
Qed.

(** After a redemption has saved the record it found, that record has the
    new password and neither token nor expiry, and no record carries the
    token. *)
Lemma postReset_success_cleared
  (env : Env) (req : Request) (dir : list UserRecord) (u : UserRecord) :
  token_is_key (params_token req) dir = true ->
  postReset_errors req = [] ->
  findOne_err env = None -> save_err env = None ->
  lookup (ByToken (params_token req)) dir = Some u ->
  lookup (ByEmail (email u)) (store (run (postReset env req) dir))
  = Some (mkUser (email u) (body_password req) None None)
  /\ lookup (ByToken (params_token req))
            (store (run (postReset env req) dir)) = None.
Proof.
  intros Hkey Hv Hf Hs Hl.
  rewrite (postReset_found_store env req dir u Hv Hf Hs Hl).
  set (u' := mkUser (email u) (body_password req) None None). split.
  - apply (lookup_update_email u'). exists u.
    split; [now apply lookup_In in Hl | reflexivity].
  - apply (lookup_ByToken_update_cleared (params_token req) u u' dir);
      try reflexivity; assumption.
Qed.

(** C4, as the code has it: after a redemption that answered
    "Success!", the record it redeemed has neither token nor expiry.
    When no record of another address carries the token, no record
    carries it any more, and a later redemption with the same token
    never succeeds and changes nothing; when its input is valid and the
    lookup works, it ends with the error "User not found". *)
Theorem postReset_success_clears_token
  (env : Env) (req : Request) (dir : list UserRecord) :
  redeem_succeeds (run (postReset env req) dir) ->
  let dir' := store (run (postReset env req) dir) in
  exists u,
    lookup (ByToken (params_token req)) dir = Some u
    /\ lookup (ByEmail (email u)) dir'
       = Some (mkUser (email u) (body_password req) None None)
    /\ (token_is_key (params_token req) dir = true ->
        lookup (ByToken (params_token req)) dir' = None
        /\ forall env2 req2,
             params_token req2 = params_token req ->
             ~ redeem_succeeds (run (postReset env2 req2) dir')
             /\ store (run (postReset env2 req2) dir') = dir'
             /\ (postReset_errors req2 = [] -> findOne_err env2 = None ->
                 redeem_TokenInvalidOrExpired
                   (run (postReset env2 req2) dir'))).
Proof.
  intros Hok. cbv zeta.
  destruct (redeem_succeeds_inv env req dir Hok)
    as [Hv [Hf [Hs [_ [u [Hl _]]]]]].
  exists u. split; [exact Hl|]. split.
  - rewrite (postReset_found_store env req dir u Hv Hf Hs Hl).
    apply (lookup_update_email
             (mkUser (email u) (body_password req) None None)).
    exists u. split; [now apply lookup_In in Hl | reflexivity].
  - intros Hkey.
    destruct (postReset_success_cleared env req dir u Hkey Hv Hf Hs Hl)
      as [_ Hnone].
    split; [exact Hnone|].
    intros env2 req2 Ht. rewrite <- Ht in Hnone.
    destruct (postReset_unknown_token_fails env2 req2 _ Hnone) as [N S].
    split; [exact N|]. split; [exact S|].
    intros Hv2 Hf2. unfold redeem_TokenInvalidOrExpired, run at 1 3.
    rewrite (postReset_unknown_token env2 req2 _ Hv2 Hf2 Hnone).
    split; reflexivity.
Qed.

Lemma postReset_success_clears_token_witness :
  let env := Sample.env_ok (Sample.T + 60000) in
  let req := Sample.redeem_request false Sample.token
                                   "tr0ub4dor" "tr0ub4dor" in
  let dir' := store (run (postReset env req) Sample.dir1) in
  exists u,
    lookup (ByToken Sample.token) Sample.dir1 = Some u
    /\ lookup (ByEmail (email u)) dir'
       = Some (mkUser (email u) "tr0ub4dor" None None)
    /\ (token_is_key Sample.token Sample.dir1 = true ->
        lookup (ByToken Sample.token) dir' = None
        /\ forall env2 req2,
             params_token req2 = Sample.token ->
             ~ redeem_succeeds (run (postReset env2 req2) dir')
             /\ store (run (postReset env2 req2) dir') = dir'
             /\ (postReset_errors req2 = [] -> findOne_err env2 = None ->
                 redeem_TokenInvalidOrExpired
                   (run (postReset env2 req2) dir'))).
Proof.
  apply (postReset_success_clears_token
           (Sample.env_ok (Sample.T + 60000))
           (Sample.redeem_request false Sample.token
                                  "tr0ub4dor" "tr0ub4dor")
           Sample.dir1); reflexivity.
Defined.

(** Alice and bob each ask for a reset and the random source gives the
    same sixteen bytes twice, so both records carry the same token.  A
    redemption with that token answers "Success!" and clears alice's
    record, and a second redemption with the same token answers
    "Success!" again, on bob's record, instead of failing. *)
Lemma postReset_token_collision_counterexample :
  let dir :=
    store (run (forgot Sample.isEmail Sample.normalizeEmail
                       (Sample.env_ok (Sample.T + 1000))
                       (Sample.forgot_request "bob@example.com"))
               Sample.dir1) in
  let env := Sample.env_ok (Sample.T + 60000) in
  let first := run (postReset env
                      (Sample.redeem_request false Sample.token
                                             "tr0ub4dor" "tr0ub4dor"))
                   dir in
  let second := run (postReset env
                       (Sample.redeem_request false Sample.token
                                              "hunter22" "hunter22"))
                    (store first) in
  reachable Sample.isEmail Sample.normalizeEmail dir
  /\ redeem_succeeds first
  /\ lookup (ByEmail "alice@example.com") (store first)
     = Some (mkUser "alice@example.com" "tr0ub4dor" None None)
  /\ redeem_succeeds second
  /\ ~ redeem_TokenInvalidOrExpired second
  /\ lookup (ByEmail "bob@example.com") (store second)
     = Some (mkUser "bob@example.com" "hunter22" None None).
Proof.
  cbv zeta. split.
  - apply reach_forgot. unfold Sample.dir1. apply reach_forgot.
    apply reach_initial. reflexivity.
  - split; [reflexivity|]. split; [reflexivity|].
    split; [reflexivity|]. split; [|reflexivity].
    unfold redeem_TokenInvalidOrExpired. intros [_ H].
    vm_compute in H. discriminate H.
Qed.

(** ** Two redemptions of one token *)

(** A redemption answers "Success!" when its input is valid, the lookup
    finds a record whose token the guard lets through, and the save and
    the login work; a failure of the mail does not change the answer. *)
Lemma postReset_found_succeeds
  (env : Env) (req : Request) (dir : list UserRecord) (u : UserRecord) :
  postReset_errors req = [] ->
  findOne_err env = None -> save_err env = None -> logIn_err env = None ->
  lookup (ByToken (params_token req)) dir = Some u ->
  JS.lt (passwordResetToken u) (Date_now env) = false ->
  redeem_succeeds (run (postReset env req) dir).
Proof.
  intros Hv Hf Hs Hg Hl Hlt.
  unfold redeem_succeeds, run, postReset. rewrite Hv. cbv zeta.
  destruct env as [now rnd ferr serr lerr merr], req as [au t e pw cpw h].
  simpl in Hf, Hs, Hg, Hl, Hlt. subst ferr serr lerr.
  step_handler. rewrite Hl. unfold not_user_or_token_lt_now.
  step_handler. rewrite Hlt. destruct merr; reflexivity.
Qed.

(** The same for the callbacks of two requests whose lookups both found
    the record [u] before either callback ran. *)
Lemma postReset_lookups_first_both_succeed
  (env1 env2 : Env) (req1 req2 : Request) (dir : list UserRecord)
  (u : UserRecord) :
  params_token req2 = params_token req1 ->
  lookup (ByToken (params_token req1)) dir = Some u ->
  findOne_err env1 = None -> save_err env1 = None ->
  logIn_err env1 = None ->
  JS.lt (passwordResetToken u) (Date_now env1) = false ->
  findOne_err env2 = None -> save_err env2 = None ->
  logIn_err env2 = None ->
  JS.lt (passwordResetToken u) (Date_now env2) = false ->
  redeem_succeeds
    (fst (postReset_lookups_first env1 req1 env2 req2 dir))
  /\ redeem_succeeds
       (snd (postReset_lookups_first env1 req1 env2 req2 dir)).
Proof.
  intros Ht Hl Hf1 Hs1 Hg1 Hlt1 Hf2 Hs2 Hg2 Hlt2.
  unfold redeem_succeeds, postReset_lookups_first. rewrite Ht.
  destruct env1 as [now1 rnd1 ferr1 serr1 lerr1 merr1],
           env2 as [now2 rnd2 ferr2 serr2 lerr2 merr2],
           req1 as [au1 t1 e1 pw1 cpw1 h1],
           req2 as [au2 t2 e2 pw2 cpw2 h2].
  simpl in Ht, Hl, Hf1, Hs1, Hg1, Hlt1, Hf2, Hs2, Hg2, Hlt2.
  subst ferr1 serr1 lerr1 ferr2 serr2 lerr2.
  step_handler. rewrite Hl. unfold not_user_or_token_lt_now.
  step_handler. rewrite Hlt1, Hlt2.
  destruct merr1, merr2; split; reflexivity.
Qed.

(** C3, as the code has it: take a valid token that has not expired,
    carried by the records of one address only, with its expiry ahead of
    the clock at both calls, and for which the handler's comparison of
    the token with the clock is false.  Of two redemptions of it run one
    after the other, the first answers "Success!" and the second ends
    with the error "User not found", so exactly one succeeds.  The
    lookup and the save are separate steps: when both lookups are
    answered before either callback runs, both redemptions answer
    "Success!". *)
Theorem postReset_one_after_the_other_exactly_one
  (env1 env2 : Env) (req1 req2 : Request) (dir : list UserRecord)
  (u : UserRecord) (expiry : Z) :
  params_token req2 = params_token req1 ->
  token_is_key (params_token req1) dir = true ->
  lookup (ByToken (params_token req1)) dir = Some u ->
  passwordResetExpires u = Some expiry ->
  Date_now env1 < expiry -> Date_now env2 < expiry ->
  JS.lt (passwordResetToken u) (Date_now env1) = false ->
  JS.lt (passwordResetToken u) (Date_now env2) = false ->
  postReset_errors req1 = [] -> postReset_errors req2 = [] ->
  findOne_err env1 = None -> save_err env1 = None ->
  logIn_err env1 = None ->
  findOne_err env2 = None -> save_err env2 = None ->
  logIn_err env2 = None ->
  exactly_one_succeeds
    (fst (postReset_one_after_the_other env1 req1 env2 req2 dir))
    (snd (postReset_one_after_the_other env1 req1 env2 req2 dir))
  /\ redeem_succeeds
       (fst (postReset_one_after_the_other env1 req1 env2 req2 dir))
  /\ redeem_TokenInvalidOrExpired
       (snd (postReset_one_after_the_other env1 req1 env2 req2 dir))
  /\ redeem_succeeds
       (fst (postReset_lookups_first env1 req1 env2 req2 dir))
  /\ redeem_succeeds
       (snd (postReset_lookups_first env1 req1 env2 req2 dir)).
Proof.
  intros Ht Hkey Hl _ _ _ Hlt1 Hlt2 Hv1 Hv2 Hf1 Hs1 Hg1 Hf2 Hs2 Hg2.
  assert (H1 : redeem_succeeds (run (postReset env1 req1) dir))
    by now apply (postReset_found_succeeds env1 req1 dir u).
  destruct (postReset_success_cleared env1 req1 dir u Hkey Hv1 Hf1 Hs1 Hl)
    as [_ Hnone].
  assert (H2 : redeem_TokenInvalidOrExpired
                 (run (postReset env2 req2)
                      (store (run (postReset env1 req1) dir)))).
  { rewrite <- Ht in Hnone. unfold redeem_TokenInvalidOrExpired, run at 1 3.
    rewrite (postReset_unknown_token env2 req2 _ Hv2 Hf2 Hnone).
    split; reflexivity. }
  unfold postReset_one_after_the_other. cbn [fst snd].
  split; [left; now split|]. split; [exact H1|]. split; [exact H2|].
  now apply (postReset_lookups_first_both_succeed env1 env2 req1 req2 dir u).
Qed.

Lemma postReset_one_after_the_other_exactly_one_witness :
  let env := Sample.env_ok (Sample.T + 60000) in
  let req1 := Sample.redeem_request false Sample.token
                                    "first password" "first password" in
  let req2 := Sample.redeem_request false Sample.token
                                    "second password" "second password" in
  exactly_one_succeeds
    (fst (postReset_one_after_the_other env req1 env req2 Sample.dir1))
    (snd (postReset_one_after_the_other env req1 env req2 Sample.dir1))
  /\ redeem_succeeds
       (fst (postReset_one_after_the_other env req1 env req2 Sample.dir1))
  /\ redeem_TokenInvalidOrExpired
       (snd (postReset_one_after_the_other env req1 env req2 Sample.dir1))
  /\ redeem_succeeds
       (fst (postReset_lookups_first env req1 env req2 Sample.dir1))
  /\ redeem_succeeds
       (snd (postReset_lookups_first env req1 env req2 Sample.dir1)).
Proof.
  apply (postReset_one_after_the_other_exactly_one
           (Sample.env_ok (Sample.T + 60000))
           (Sample.env_ok (Sample.T + 60000))
           (Sample.redeem_request false Sample.token
                                  "first password" "first password")
           (Sample.redeem_request false Sample.token
                                  "second password" "second password")
           Sample.dir1
           (mkUser "alice@example.com" "correct horse"
                   (Some Sample.token) (Some (Sample.T + one_hour)))
           (Sample.T + one_hour));
    reflexivity.
Defined.

(** Two redemptions of alice's token, one minute after it was issued,
    whose lookups are both answered before either callback runs: both
    answer "Success!", so it is not the case that exactly one succeeds and
    the other is rejected. *)
Lemma postReset_concurrent_counterexample :
  let env := Sample.env_ok (Sample.T + 60000) in
  let req1 := Sample.redeem_request false Sample.token
                                    "first password" "first password" in
  let req2 := Sample.redeem_request false Sample.token
                                    "second password" "second password" in
  let sts := postReset_lookups_first env req1 env req2 Sample.dir1 in
  lookup (ByToken Sample.token) Sample.dir1
  = Some (mkUser "alice@example.com" "correct horse"
                 (Some Sample.token) (Some (Sample.T + one_hour)))
  /\ Sample.T + 60000 < Sample.T + one_hour
  /\ redeem_succeeds (fst sts) /\ redeem_succeeds (snd sts)
  /\ lookup (ByEmail "alice@example.com") (store (snd sts))
     = Some (mkUser "alice@example.com" "second password" None None)
  /\ ~ exactly_one_succeeds (fst sts) (snd sts).
Proof.
  cbv zeta. split; [reflexivity|]. split; [reflexivity|].
  split; [reflexivity|]. split; [reflexivity|]. split; [reflexivity|].
  unfold exactly_one_succeeds, redeem_TokenInvalidOrExpired.
  intros [[_ [_ H]]|[[_ H] _]]; vm_compute in H; discriminate H.
Qed.

(** ** The token and its expiry go together *)

Create HintDb keeps.

Section Keeps.

Variable P : list UserRecord -> Prop.
Hypothesis P_update :
  forall u dir, both_or_neither u = true -> P dir -> P (update u dir).

Lemma keeps_ret (A : Type) (a : A) : keeps P (ret a).
Proof. intros st H. exact H. Qed.

Lemma keeps_throw (A : Type) (e : JS.Exn) : keeps P (@throw A e).
Proof. intros st H. exact H. Qed.

Lemma keeps_bind (A B : Type) (m : M A) (f : A -> M B) :
  keeps P m -> (forall a, keeps P (f a)) -> keeps P (bind m f).
Proof.
  intros Hm Hf st H. unfold bind. specialize (Hm st H).
  destruct (m st) as [[a|e] st']; simpl in Hm.
  - now apply Hf.
  - exact Hm.
Qed.

Lemma keeps_res_send (status : Z) (b : Body) : keeps P (res_send status b).
Proof. intros st H. unfold res_send. now destruct (response st). Qed.

Lemma keeps_next (e : JS.Error) : keeps P (next e).
Proof. intros st H. exact H. Qed.

Lemma keeps_call (c : Call) : keeps P (call c).
Proof. intros st H. exact H. Qed.

Lemma keeps_User_findOne (env : Env) (q : Query) :
  keeps P (User_findOne env q).
Proof.
  apply keeps_bind; [apply keeps_call|].
  intros _ st H. now destruct (findOne_err env).
Qed.

Lemma keeps_user_save (env : Env) (u : UserRecord) :
  both_or_neither u = true -> keeps P (user_save env u).
Proof.
  intros Hu. apply keeps_bind; [apply keeps_call|].
  intros _ st H. destruct (save_err env); simpl.
  - exact H.
  - now apply P_update.
Qed.

Lemma keeps_req_logIn (env : Env) (u : UserRecord) :
  keeps P (req_logIn env u).
Proof.
  apply keeps_bind; [apply keeps_call|].
  intros _ st H. now destruct (logIn_err env).
Qed.

Lemma keeps_transporter_sendMail (env : Env) (m : Mail) :
  keeps P (transporter_sendMail env m).
Proof.
  apply keeps_bind; [apply keeps_call|]. intros _ st H. exact H.
Qed.

Lemma keeps_crypto_randomBytes (env : Env) (size : nat) :
  keeps P (crypto_randomBytes env size).
Proof.
  apply keeps_bind; [apply keeps_call|]. intros _. apply keeps_ret.
Qed.

Lemma keeps_onlyOnce (i : nat) (k : M unit) :
  keeps P k -> keeps P (onlyOnce i k).
Proof.
  intros Hk st H. unfold onlyOnce.
  destruct (existsb (Nat.eqb i) (called st)).
  - exact H.
  - now apply Hk.
Qed.

Lemma keeps_waterfall_next (i : nat) (final : option JS.Error -> M unit)
  (err : option JS.Error) (next_task : M unit) :
  (forall e, keeps P (final e)) -> keeps P next_task ->
  keeps P (waterfall_next i final err next_task).
Proof.
  intros Hf Hn. apply keeps_onlyOnce. now destruct err.
Qed.

#[local] Hint Resolve keeps_ret keeps_throw keeps_res_send keeps_next keeps_call
  keeps_User_findOne keeps_user_save keeps_req_logIn
  keeps_transporter_sendMail keeps_crypto_randomBytes : keeps.

(** Splits a computation along its binds and its case distinctions. *)
Ltac keeps_split :=
  repeat first
    [ progress intros
    | solve [auto with keeps]
    | apply keeps_bind
    | apply keeps_waterfall_next
    | match goal with
      | |- keeps _ (match ?x with _ => _ end) => destruct x
      end ].

Lemma keeps_getReset (env : Env) (req : Request) :
  keeps P (getReset env req).
Proof. unfold getReset, getReset_findOne_cb. keeps_split. Qed.

Lemma keeps_postReset_final (err : option JS.Error) :
  keeps P (postReset_final err).
Proof. unfold postReset_final. keeps_split. Qed.

Lemma keeps_postReset_findOne_cb (env : Env) (req : Request)
  (r : option JS.Error * option UserRecord) :
  keeps P (postReset_findOne_cb env req r).
Proof.
  pose proof keeps_postReset_final.
  unfold postReset_findOne_cb, resetPassword_cb, sendResetPasswordEmail.
  keeps_split.
Qed.

Lemma keeps_postReset (env : Env) (req : Request) :
  keeps P (postReset env req).
Proof.
  pose proof keeps_postReset_findOne_cb.
  unfold postReset. keeps_split.
Qed.

Lemma keeps_forgot_final (req : Request) (err : option JS.Error) :
  keeps P (forgot_final req err).
Proof. unfold forgot_final. keeps_split. Qed.

Lemma keeps_forgot_findOne_cb (env : Env) (req : Request) (token : string)
  (r : option JS.Error * option UserRecord) :
  keeps P (forgot_findOne_cb env req token r).
Proof.
  pose proof keeps_forgot_final.
  unfold forgot_findOne_cb, setRandomToken_cb, sendForgotPasswordEmail.
  keeps_split.
Qed.

Lemma keeps_forgot (isEmail : string -> bool)
  (normalizeEmail : string -> string) (env : Env) (req : Request) :
  keeps P (forgot isEmail normalizeEmail env req).
Proof.
  pose proof keeps_forgot_final. pose proof keeps_forgot_findOne_cb.
  unfold forgot, createRandomToken. keeps_split.
Qed.

End Keeps.

Lemma both_or_neither_update (u : UserRecord) (dir : list UserRecord) :
  both_or_neither u = true ->
  forallb both_or_neither dir = true ->
  forallb both_or_neither (update u dir) = true.
Proof.
  intros Hu Hd. rewrite forallb_forall in *. intros r Hr.
  apply In_update in Hr. destruct Hr as [->|[Hr _]]; auto.
Qed.

Lemma no_reset_both_or_neither (dir : list UserRecord) :
  forallb no_reset dir = true -> forallb both_or_neither dir = true.
Proof.
  intros H. rewrite forallb_forall in *. intros r Hr.
  specialize (H r Hr). unfold no_reset in H. unfold both_or_neither.
  destruct (passwordResetToken r), (passwordResetExpires r);
    congruence.
Qed.

(** C7: in every reachable directory, each record has its reset token and
    its expiry both set or both absent.  Reachable is: from a directory
    with no reset pending, by [forgot], [getReset] and [postReset], run
    whole or, for the two that save, from the callback of a lookup made
    earlier. *)
Theorem reachable_both_or_neither
  (isEmail : string -> bool) (normalizeEmail : string -> string)
  (dir : list UserRecord) :
  reachable isEmail normalizeEmail dir ->
  forallb both_or_neither dir = true.
Proof.
  pose proof both_or_neither_update as U.
  induction 1 as [dir H|env req dir _ IH|env req dir _ IH|env req dir _ IH
                 |env req token r dir _ IH|env req r dir _ IH].
  - now apply no_reset_both_or_neither.
  - exact (keeps_forgot _ U isEmail normalizeEmail env req
                        (begin_request dir) IH).
  - exact (keeps_getReset (fun d => forallb both_or_neither d = true)
                          env req (begin_request dir) IH).
  - exact (keeps_postReset _ U env req (begin_request dir) IH).
  - exact (keeps_forgot_findOne_cb _ U env req token r
                                   (begin_request dir) IH).
  - exact (keeps_postReset_findOne_cb _ U env req r
                                      (begin_request dir) IH).
Qed.

Lemma reachable_both_or_neither_witness :
  let dir2 :=
    store (run (postReset (Sample.env_ok (Sample.T + 60000))
                          (Sample.redeem_request false Sample.token
                                                 "tr0ub4dor" "tr0ub4dor"))
               Sample.dir1) in
  reachable Sample.isEmail Sample.normalizeEmail Sample.dir1
  /\ forallb both_or_neither Sample.dir1 = true
  /\ reachable Sample.isEmail Sample.normalizeEmail dir2
  /\ forallb both_or_neither dir2 = true.
Proof.
  cbv zeta.
  assert (R1 : reachable Sample.isEmail Sample.normalizeEmail Sample.dir1).
  { unfold Sample.dir1. apply reach_forgot. apply reach_initial.
    reflexivity. }
  split; [exact R1|].
  split; [exact (reachable_both_or_neither _ _ _ R1)|].
  split; [now apply reach_postReset|].
  apply (reachable_both_or_neither Sample.isEmail Sample.normalizeEmail).
  now apply reach_postReset.
Defined.

(** ** Verification *)

(** What [getReset] answers to a caller without a session when the lookup
    works: 403 when no record carries the token or when the token, read
    as a number, is below the clock; 200 otherwise.  The expiry of the
    record plays no part. *)
Lemma getReset_outcome (env : Env) (req : Request) (dir : list UserRecord) :
  isAuthenticated req = false -> findOne_err env = None ->
  response (run (getReset env req) dir)
  = match lookup (ByToken (params_token req)) dir with
    | None =>
        Some (403, Text "Password reset token is invalid or has expired.")
    | Some u =>
        if JS.lt (passwordResetToken u) (Date_now env)
        then Some (403,
                   Text "Password reset token is invalid or has expired.")
        else Some (200, Text "Password reset token is valid.")
    end.
Proof.
  intros Ha Hf. unfold run, getReset. rewrite Ha.
  destruct env as [now rnd ferr serr lerr merr], req as [au t e pw cpw h].
  simpl in Hf. subst ferr. step_handler.
  destruct (lookup (ByToken t) dir) as [u|]; [|reflexivity].
  unfold not_user_or_token_lt_now. step_handler.
  destruct (JS.lt (passwordResetToken u) now); reflexivity.
Qed.

(** X27: a token that is not a numeric literal is accepted at any time,
    however long ago it was issued. *)
Lemma getReset_non_numeric_token_never_expires
  (env : Env) (req : Request) (dir : list UserRecord) (u : UserRecord) :
  isAuthenticated req = false -> findOne_err env = None ->
  lookup (ByToken (params_token req)) dir = Some u ->
  JS.StringToNumber (params_token req) = JS.NaN ->
  verify_succeeds (run (getReset env req) dir).
Proof.
  intros Ha Hf Hl Hn. unfold verify_succeeds.
  rewrite (getReset_outcome env req dir Ha Hf), Hl.
  rewrite (lookup_ByToken_token _ _ _ Hl). unfold JS.lt.
  now rewrite Hn.
Qed.

(** C1, on the code: alice's token was issued at [T] and expires at
    [T] plus one hour.  [getReset] accepts it 3599 seconds after [T], and
    it still accepts it 3601 seconds after [T], where the claim has it
    fail: the guard compares the token, not the expiry, with the clock. *)
Theorem getReset_accepts_token_after_expiry :
  lookup (ByToken Sample.token) Sample.dir1
  = Some (mkUser "alice@example.com" "correct horse"
                 (Some Sample.token) (Some (Sample.T + one_hour)))
  /\ verify_succeeds
       (run (getReset (Sample.env_ok (Sample.T + 3599 * 1000))
                      (Sample.verify_request Sample.token)) Sample.dir1)
  /\ verify_succeeds
       (run (getReset (Sample.env_ok (Sample.T + 3601 * 1000))
                      (Sample.verify_request Sample.token)) Sample.dir1)
  /\ ~ verify_TokenInvalidOrExpired
         (run (getReset (Sample.env_ok (Sample.T + 3601 * 1000))
                        (Sample.verify_request Sample.token)) Sample.dir1).
Proof.
  split; [reflexivity|]. split; [reflexivity|]. split; [reflexivity|].
  unfold verify_TokenInvalidOrExpired. intros H.
  vm_compute in H. discriminate H.
Qed.

(** The guard errs the other way as well: a token of decimal digits that
    reads as a number below the clock is rejected one second after it was
    issued. *)
Lemma getReset_rejects_numeric_token_before_expiry :
  let t := "00000000000000000000000000000001" in
  let dir := [mkUser "alice@example.com" "correct horse"
                     (Some t) (Some (Sample.T + one_hour))] in
  verify_TokenInvalidOrExpired
    (run (getReset (Sample.env_ok (Sample.T + 1000))
                   (Sample.verify_request t)) dir).
Proof. reflexivity. Qed.

(** ** Failures of the collaborators *)

(** X28: whenever the mail transport fails after [postReset] has saved,
    the caller is answered "Success!" and the error goes to [next] only. *)
Lemma postReset_mail_failure
  (env : Env) (req : Request) (dir : list UserRecord) (u : UserRecord)
  (e : JS.Error) :
  postReset_errors req = [] ->
  findOne_err env = None -> save_err env = None -> logIn_err env = None ->
  lookup (ByToken (params_token req)) dir = Some u ->
  JS.lt (passwordResetToken u) (Date_now env) = false ->
  sendMail_err env = Some e ->
  let st := run (postReset env req) dir in
  redeem_succeeds st /\ nexts st = [e] /\ List.length (mails st) = 1%nat.
Proof.
  intros Hv Hf Hs Hg Hl Hlt Hm.
  unfold redeem_succeeds, run, postReset. rewrite Hv. cbv zeta.
  destruct env as [now rnd ferr serr lerr merr], req as [au t a pw cpw h].
  simpl in Hf, Hs, Hg, Hl, Hlt, Hm. subst ferr serr lerr merr.
  step_handler. rewrite Hl. unfold not_user_or_token_lt_now.
  step_handler. rewrite Hlt. repeat split.
Qed.

(** X29: whenever the random source fails, [forgot] throws in
    [createRandomToken]; the error of the source reaches neither [next]
    nor the response, and nothing is looked up, saved or mailed. *)
Lemma forgot_random_source_fails
  (isEmail : string -> bool) (normalizeEmail : string -> string)
  (env : Env) (req : Request) (dir : list UserRecord) (e : JS.Error) :
  isEmail (body_email req) = true ->
  random_source env = inl e ->
  forgot isEmail normalizeEmail env req (begin_request dir)
  = (inr (JS.TypeError "Cannot read property 'toString' of undefined"),
     mkSt dir None [] [] None [CallRandomBytes] []).
Proof.
  intros He Hr. unfold forgot, forgot_errors. rewrite He. cbv zeta iota.
  destruct env as [now rnd ferr serr lerr merr]. simpl in Hr. subst rnd.
  reflexivity.
Qed.

(** C8, on the code: when the mail transport fails after the save,
    [forgot] has stored the token and made one attempt to send, but it
    has already answered 200 with the acknowledgment; [postReset] has
    stored the new password and made one attempt, but it has already
    answered 200 "Success!".  The error only goes to [next], after the
    response. *)
Theorem mail_failure_answered_as_success :
  let issued :=
    run (forgot Sample.isEmail Sample.normalizeEmail
                (Sample.env_mail_fails Sample.T)
                (Sample.forgot_request "alice@example.com")) Sample.dir0 in
  let redeemed :=
    run (postReset (Sample.env_mail_fails (Sample.T + 60000))
                   (Sample.redeem_request false Sample.token
                                          "tr0ub4dor" "tr0ub4dor"))
        Sample.dir1 in
  (store issued = Sample.dir1
   /\ List.length (mails issued) = 1%nat
   /\ response issued = Some (200, acknowledgment "alice@example.com")
   /\ nexts issued = [JS.mkError "connect ECONNREFUSED"])
  /\ (lookup (ByEmail "alice@example.com") (store redeemed)
      = Some (mkUser "alice@example.com" "tr0ub4dor" None None)
      /\ List.length (mails redeemed) = 1%nat
      /\ redeem_succeeds redeemed
      /\ nexts redeemed = [JS.mkError "connect ECONNREFUSED"]).
Proof. repeat split. Qed.

(** C9, on the code: when the random source fails, [createRandomToken]
    reads [buf.toString] of the missing buffer and throws before it
    reaches [done(err, token)].  No token is made and nothing is stored,
    but the error of the source is handed to nobody: nothing goes to
    [next] and nothing is answered. *)
Theorem forgot_entropy_error_not_reported :
  forgot Sample.isEmail Sample.normalizeEmail
         (Sample.env_no_entropy Sample.T)
         (Sample.forgot_request "alice@example.com")
         (begin_request Sample.dir0)
  = (inr (JS.TypeError "Cannot read property 'toString' of undefined"),
     mkSt Sample.dir0 None [] [] None [CallRandomBytes] []).
Proof. reflexivity. Qed.

(* ================================================================== *)
(** * Further properties of the handlers *)

(** ** More on the directory *)

Lemma lookup_ByEmail_update_other (a : string) (u : UserRecord)
  (dir : list UserRecord) :
  email u <> a ->
  lookup (ByEmail a) (update u dir) = lookup (ByEmail a) dir.
Proof.
  intros Hne. unfold lookup, update.
  induction dir as [|r dir IH]; [reflexivity|]. simpl.
  destruct (String.eqb_spec (email r) (email u)) as [E|E].
  - apply String.eqb_neq in Hne. rewrite Hne.
    rewrite E. rewrite Hne. exact IH.
  - destruct (String.eqb (email r) a); [reflexivity | exact IH].
Qed.

(** Once the holder of a token is saved with another token, or with
    none, no record carries the first token. *)
Lemma lookup_ByToken_update_replaced (t : string) (u u' : UserRecord)
  (dir : list UserRecord) :
  token_is_key t dir = true ->
  lookup (ByToken t) dir = Some u ->
  email u' = email u -> matches (ByToken t) u' = false ->
  lookup (ByToken t) (update u' dir) = None.
Proof.
  unfold token_is_key. intros Hkey Hl He Hno. rewrite Hl in Hkey.
  apply lookup_None_intro.
  intros r Hr. apply In_update in Hr. destruct Hr as [->|[Hr Hne]].
  - exact Hno.
  - rewrite forallb_forall in Hkey. specialize (Hkey r Hr).
    destruct (matches (ByToken t) r); [|reflexivity].
    simpl in Hkey. apply String.eqb_eq in Hkey.
    exfalso. apply Hne. now rewrite He.
Qed.

(** A record saved with a token that no record carried is the one the
    lookup by that token finds. *)
Lemma lookup_ByToken_update_fresh (t : string) (u' : UserRecord)
  (dir : list UserRecord) :
  lookup (ByToken t) dir = None ->
  passwordResetToken u' = Some t ->
  (exists r, In r dir /\ email r = email u') ->
  lookup (ByToken t) (update u' dir) = Some u'.
Proof.
  unfold lookup, update. intros Hnone Ht.
  induction dir as [|x dir IH]; intros [r [Hin Hr]].
  - destruct Hin.
  - cbn [find] in Hnone.
    destruct (matches (ByToken t) x) eqn:Hx; [discriminate|].
    cbn [map find].
    destruct (String.eqb_spec (email x) (email u')) as [E|E].
    + cbn [matches]. rewrite Ht, String.eqb_refl. reflexivity.
    + rewrite Hx. apply IH; [exact Hnone|].
      destruct Hin as [->|Hin]; [contradiction|]. now exists r.
Qed.

(** ** More on verification *)

(** X1: [getReset] only reads.  Whatever the request and whatever the
    collaborators answer, it leaves the directory as it was, sends no
    mail, opens no session, and calls no collaborator but the lookup. *)
Theorem getReset_read_only
  (env : Env) (req : Request) (dir : list UserRecord) :
  let st := run (getReset env req) dir in
  store st = dir /\ mails st = [] /\ session st = None
  /\ (calls st = [] \/ calls st = [CallFindOne]).
Proof.
  cbv zeta. unfold run, getReset.
  destruct env as [now rnd ferr serr lerr merr], req as [au t e pw cpw h].
  step_handler. destruct au; [simpl; tauto|].
  destruct ferr; [simpl; tauto|].
  destruct (not_user_or_token_lt_now _ _); simpl; tauto.
Qed.

(** X2: for a caller without a session and a lookup that works,
    [getReset] answers 403 exactly when no record carries the token or
    the token itself, read as a number, is below the clock, and it
    answers 200 exactly when a record carries the token and the token is
    not below the clock.  The expiry of the record does not enter. *)
Theorem getReset_rejects_iff
  (env : Env) (req : Request) (dir : list UserRecord) :
  isAuthenticated req = false -> findOne_err env = None ->
  let st := run (getReset env req) dir in
  let t := params_token req in
  (verify_TokenInvalidOrExpired st <->
   lookup (ByToken t) dir = None \/ JS.lt (Some t) (Date_now env) = true)
  /\ (verify_succeeds st <->
      lookup (ByToken t) dir <> None
      /\ JS.lt (Some t) (Date_now env) = false).
Proof.
  intros Ha Hf. cbv zeta.
  unfold verify_TokenInvalidOrExpired, verify_succeeds.
  rewrite (getReset_outcome env req dir Ha Hf).
  destruct (lookup (ByToken (params_token req)) dir) as [u|] eqn:Hl.
  - rewrite (lookup_ByToken_token _ _ _ Hl).
    destruct (JS.lt (Some (params_token req)) (Date_now env));
      intuition congruence.
  - intuition congruence.
Qed.

Lemma getReset_rejects_iff_witness :
  let env := Sample.env_ok (Sample.T + 3601 * 1000) in
  let req := Sample.verify_request Sample.token in
  let st := run (getReset env req) Sample.dir1 in
  (verify_TokenInvalidOrExpired st <->
   lookup (ByToken Sample.token) Sample.dir1 = None
   \/ JS.lt (Some Sample.token) (Date_now env) = true)
  /\ (verify_succeeds st <->
      lookup (ByToken Sample.token) Sample.dir1 <> None
      /\ JS.lt (Some Sample.token) (Date_now env) = false).
Proof.
  apply (getReset_rejects_iff
           (Sample.env_ok (Sample.T + 3601 * 1000))
           (Sample.verify_request Sample.token) Sample.dir1);
    reflexivity.
Defined.

Lemma getReset_non_numeric_token_never_expires_witness :
  verify_succeeds
    (run (getReset (Sample.env_ok (Sample.T + 365 * 24 * one_hour))
                   (Sample.verify_request Sample.token)) Sample.dir1).
Proof.
  apply (getReset_non_numeric_token_never_expires
           (Sample.env_ok (Sample.T + 365 * 24 * one_hour))
           (Sample.verify_request Sample.token) Sample.dir1
           (mkUser "alice@example.com" "correct horse"
                   (Some Sample.token) (Some (Sample.T + one_hour))));
    reflexivity.
Defined.

(** ** More on redemption *)

(** X3: the whole effect of [postReset] on the directory.  It saves, and
    then the record found by the token with the new password and with
    neither token nor expiry, exactly when the input is valid, the
    lookup works and finds a record, and the save works; in every other
    case the directory is as it was.  The guard on the token and the
    session of the caller do not enter. *)
Theorem postReset_store_effect
  (env : Env) (req : Request) (dir : list UserRecord) :
  store (run (postReset env req) dir)
  = match postReset_errors req, findOne_err env,
          lookup (ByToken (params_token req)) dir, save_err env with
    | [], None, Some u, None =>
        update (mkUser (email u) (body_password req) None None) dir
    | _, _, _, _ => dir
    end.
Proof.
  unfold run, postReset. cbv zeta.
  destruct (postReset_errors req) as [|x errors]; [|reflexivity].
  destruct env as [now rnd ferr serr lerr merr], req as [au t e pw cpw h].
  step_handler. destruct ferr as [fe|]; [reflexivity|].
  destruct (lookup (ByToken t) dir) as [u|]; [|reflexivity].
  destruct (not_user_or_token_lt_now _ _);
    destruct serr, lerr, merr; reflexivity.
Qed.

(** X4: when the lookup finds a record but the guard holds, because the
    token reads as a number below the clock, [postReset] ends the
    waterfall with the error "User not found" and answers nothing, and
    yet, there being no [return] after [done], goes on to store the new
    password and to clear the token.  The second use of [done] then
    throws, so no mail is sent. *)
Theorem postReset_guard_rejects_but_saves
  (env : Env) (req : Request) (dir : list UserRecord) (u : UserRecord) :
  postReset_errors req = [] ->
  findOne_err env = None -> save_err env = None ->
  lookup (ByToken (params_token req)) dir = Some u ->
  JS.lt (passwordResetToken u) (Date_now env) = true ->
  let st := run (postReset env req) dir in
  redeem_TokenInvalidOrExpired st
  /\ lookup (ByEmail (email u)) (store st)
     = Some (mkUser (email u) (body_password req) None None)
  /\ mails st = []
  /\ (logIn_err env = None ->
      session st = Some (email u)
      /\ fst (postReset env req (begin_request dir))
         = inr JS.CallbackAlreadyCalled).
Proof.
  intros Hv Hf Hs Hl Hlt. cbv zeta.
  split; [|split; [|split]].
  - unfold redeem_TokenInvalidOrExpired, run, postReset. rewrite Hv.
    cbv zeta.
    destruct env as [now rnd ferr serr lerr merr],
             req as [au t e pw cpw h].
    simpl in Hf, Hs, Hl, Hlt. subst ferr serr.
    step_handler. rewrite Hl. unfold not_user_or_token_lt_now.
    step_handler. rewrite Hlt. destruct lerr; split; reflexivity.
  - rewrite (postReset_found_store env req dir u Hv Hf Hs Hl).
    apply (lookup_update_email
             (mkUser (email u) (body_password req) None None)).
    exists u. split; [now apply lookup_In in Hl | reflexivity].
  - unfold run, postReset. rewrite Hv. cbv zeta.
    destruct env as [now rnd ferr serr lerr merr],
             req as [au t e pw cpw h].
    simpl in Hf, Hs, Hl, Hlt. subst ferr serr.
    step_handler. rewrite Hl. unfold not_user_or_token_lt_now.
    step_handler. rewrite Hlt. destruct lerr; reflexivity.
  - intros Hg. unfold run, postReset. rewrite Hv. cbv zeta.
    destruct env as [now rnd ferr serr lerr merr],
             req as [au t e pw cpw h].
    simpl in Hf, Hs, Hl, Hlt, Hg. subst ferr serr lerr.
    step_handler. rewrite Hl. unfold not_user_or_token_lt_now.
    step_handler. rewrite Hlt. split; reflexivity.
Qed.

Lemma postReset_guard_rejects_but_saves_witness :
  let t := "00000000000000000000000000000001" in
  let dir := [mkUser "alice@example.com" "correct horse"
                     (Some t) (Some (Sample.T + one_hour))] in
  let env := Sample.env_ok (Sample.T + 1000) in
  let req := Sample.redeem_request false t "tr0ub4dor" "tr0ub4dor" in
  let st := run (postReset env req) dir in
  redeem_TokenInvalidOrExpired st
  /\ lookup (ByEmail "alice@example.com") (store st)
     = Some (mkUser "alice@example.com" "tr0ub4dor" None None)
  /\ mails st = []
  /\ (logIn_err env = None ->
      session st = Some "alice@example.com"
      /\ fst (postReset env req (begin_request dir))
         = inr JS.CallbackAlreadyCalled).
Proof.
  apply (postReset_guard_rejects_but_saves
           (Sample.env_ok (Sample.T + 1000))
           (Sample.redeem_request false
              "00000000000000000000000000000001" "tr0ub4dor" "tr0ub4dor")
           [mkUser "alice@example.com" "correct horse"
                   (Some "00000000000000000000000000000001")
                   (Some (Sample.T + one_hour))]
           (mkUser "alice@example.com" "correct horse"
                   (Some "00000000000000000000000000000001")
                   (Some (Sample.T + one_hour))));
    reflexivity.
Defined.

(** X5: when the save fails, [postReset] hands the error to [next] and
    stops: the directory is as it was, nobody is logged in, no mail is
    sent and nothing is answered. *)
Theorem postReset_save_failure
  (env : Env) (req : Request) (dir : list UserRecord) (u : UserRecord)
  (e : JS.Error) :
  postReset_errors req = [] -> findOne_err env = None ->
  lookup (ByToken (params_token req)) dir = Some u ->
  JS.lt (passwordResetToken u) (Date_now env) = false ->
  save_err env = Some e ->
  postReset env req (begin_request dir)
  = (inl tt, mkSt dir None [e] [] None [CallFindOne; CallSave] []).
Proof.
  intros Hv Hf Hl Hlt Hs. unfold postReset. rewrite Hv. cbv zeta.
  destruct env as [now rnd ferr serr lerr merr], req as [au t a pw cpw h].
  simpl in Hf, Hs, Hl, Hlt. subst ferr serr.
  step_handler. rewrite Hl. unfold not_user_or_token_lt_now.
  step_handler. rewrite Hlt. reflexivity.
Qed.

Lemma postReset_save_failure_witness :
  postReset (SampleAccounts.env_save_fails (Sample.T + 60000))
            (Sample.redeem_request false Sample.token
                                   "tr0ub4dor" "tr0ub4dor")
            (begin_request Sample.dir1)
  = (inl tt,
     mkSt Sample.dir1 None [JS.mkError "ServiceUnavailable"] [] None
          [CallFindOne; CallSave] []).
Proof.
  apply (postReset_save_failure
           (SampleAccounts.env_save_fails (Sample.T + 60000))
           (Sample.redeem_request false Sample.token
                                  "tr0ub4dor" "tr0ub4dor")
           Sample.dir1
           (mkUser "alice@example.com" "correct horse"
                   (Some Sample.token) (Some (Sample.T + one_hour))));
    reflexivity.
Defined.

(** X6: when the save works but [req.logIn] fails, the new password is
    stored and the token is gone, but the caller gets no "Success!": the
    error goes to [next], no session is opened and no mail is sent. *)
Theorem postReset_logIn_failure
  (env : Env) (req : Request) (dir : list UserRecord) (u : UserRecord)
  (e : JS.Error) :
  postReset_errors req = [] ->
  findOne_err env = None -> save_err env = None ->
  lookup (ByToken (params_token req)) dir = Some u ->
  JS.lt (passwordResetToken u) (Date_now env) = false ->
  logIn_err env = Some e ->
  postReset env req (begin_request dir)
  = (inl tt,
     mkSt (update (mkUser (email u) (body_password req) None None) dir)
          None [e] [] None [CallFindOne; CallSave; CallLogIn] [1%nat]).
Proof.
  intros Hv Hf Hs Hl Hlt Hg. unfold postReset. rewrite Hv. cbv zeta.
  destruct env as [now rnd ferr serr lerr merr], req as [au t a pw cpw h].
  simpl in Hf, Hs, Hl, Hlt, Hg. subst ferr serr lerr.
  step_handler. rewrite Hl. unfold not_user_or_token_lt_now.
  step_handler. rewrite Hlt. reflexivity.
Qed.

Lemma postReset_logIn_failure_witness :
  let env := SampleAccounts.env_logIn_fails (Sample.T + 60000) in
  let req := Sample.redeem_request false Sample.token
                                   "tr0ub4dor" "tr0ub4dor" in
  postReset env req (begin_request Sample.dir1)
  = (inl tt,
     mkSt [mkUser "alice@example.com" "tr0ub4dor" None None; Sample.bob]
          None [JS.mkError "Failed to serialize user into session"] []
          None [CallFindOne; CallSave; CallLogIn] [1%nat]).
Proof.
  apply (postReset_logIn_failure
           (SampleAccounts.env_logIn_fails (Sample.T + 60000))
           (Sample.redeem_request false Sample.token
                                  "tr0ub4dor" "tr0ub4dor")
           Sample.dir1
           (mkUser "alice@example.com" "correct horse"
                   (Some Sample.token) (Some (Sample.T + one_hour))));
    reflexivity.
Defined.

(** X7: a redemption that goes through opens the session of the user it
    redeemed and sends one mail, to that user's address; the text of the
    mail is made of the address alone, so it holds neither the password
    nor the token. *)
Theorem postReset_success_session_and_mail
  (env : Env) (req : Request) (dir : list UserRecord) (u : UserRecord) :
  postReset_errors req = [] ->
  findOne_err env = None -> save_err env = None -> logIn_err env = None ->
  lookup (ByToken (params_token req)) dir = Some u ->
  JS.lt (passwordResetToken u) (Date_now env) = false ->
  let st := run (postReset env req) dir in
  session st = Some (email u)
  /\ mails st
     = [mkMail (email u) "service@cooper.com"
               "Your password has been changed"
               ("Hello," ++ nl ++ nl
                ++ "This is a confirmation that the password for your account "
                ++ email u ++ " has just been changed." ++ nl)]
  /\ calls st = [CallFindOne; CallSave; CallLogIn; CallSendMail].
Proof.
  intros Hv Hf Hs Hg Hl Hlt. cbv zeta. unfold run, postReset.
  rewrite Hv. cbv zeta.
  destruct env as [now rnd ferr serr lerr merr], req as [au t a pw cpw h].
  simpl in Hf, Hs, Hg, Hl, Hlt. subst ferr serr lerr.
  step_handler. rewrite Hl. unfold not_user_or_token_lt_now.
  step_handler. rewrite Hlt. destruct merr; repeat split.
Qed.

Lemma postReset_success_session_and_mail_witness :
  let st := run (postReset (Sample.env_ok (Sample.T + 60000))
                           (Sample.redeem_request false Sample.token
                                                  "tr0ub4dor" "tr0ub4dor"))
                Sample.dir1 in
  session st = Some "alice@example.com"
  /\ mails st
     = [mkMail "alice@example.com" "service@cooper.com"
               "Your password has been changed"
               ("Hello," ++ nl ++ nl
                ++ "This is a confirmation that the password for your account "
                ++ "alice@example.com" ++ " has just been changed." ++ nl)]
  /\ calls st = [CallFindOne; CallSave; CallLogIn; CallSendMail].
Proof.
  apply (postReset_success_session_and_mail
           (Sample.env_ok (Sample.T + 60000))
           (Sample.redeem_request false Sample.token
                                  "tr0ub4dor" "tr0ub4dor")
           Sample.dir1
           (mkUser "alice@example.com" "correct horse"
                   (Some Sample.token) (Some (Sample.T + one_hour))));
    reflexivity.
Defined.

(** ** More on issuance *)

(** What [forgot] leaves in the directory, case by case. *)
Lemma forgot_store_cases
  (isEmail : string -> bool) (normalizeEmail : string -> string)
  (env : Env) (req : Request) (dir : list UserRecord) :
  store (run (forgot isEmail normalizeEmail env req) dir)
  = match isEmail (body_email req), random_source env, findOne_err env,
          lookup (ByEmail (normalizeEmail (body_email req))) dir,
          save_err env with
    | true, inr src, None, Some u, None =>
        update (mkUser (email u) (password u)
                  (Some (JS.Buffer_toString_hex (map src (seq 0 16))))
                  (Some (Date_now env + 3600000))) dir
    | _, _, _, _, _ => dir
    end.
Proof.
  unfold run, forgot, forgot_errors.
  destruct (isEmail (body_email req)); [|reflexivity]. cbv zeta iota.
  destruct env as [now rnd ferr serr lerr merr], req as [au t e pw cpw h].
  step_handler. destruct rnd as [re|src]; [reflexivity|].
  destruct ferr as [[fm]|].
  - step_handler. destruct (String.eqb fm "User not found"); reflexivity.
  - destruct (lookup (ByEmail (normalizeEmail e)) dir) as [u|].
    + destruct serr as [[sm]|].
      * step_handler.
        destruct (String.eqb sm "User not found"); reflexivity.
      * destruct merr as [[mm]|]; [|reflexivity].
        step_handler.
        destruct (String.eqb mm "User not found"); reflexivity.
    + vm_compute String.eqb. reflexivity.
Qed.

(** X8: the whole effect of [forgot] on the directory.  It saves, and
    then the record found under the address with a fresh token and the
    expiry one hour ahead, exactly when the address is valid, the random
    source, the lookup and the save work, and the address is in the
    directory; in every other case, a failing mail among them, the
    directory is as it was. *)
Theorem forgot_store_effect
  (isEmail : string -> bool) (normalizeEmail : string -> string)
  (env : Env) (req : Request) (dir : list UserRecord) :
  store (run (forgot isEmail normalizeEmail env req) dir)
  = match isEmail (body_email req), random_source env, findOne_err env,
          lookup (ByEmail (normalizeEmail (body_email req))) dir,
          save_err env with
    | true, inr src, None, Some u, None =>
        update (mkUser (email u) (password u)
                  (Some (JS.Buffer_toString_hex (map src (seq 0 16))))
                  (Some (Date_now env + one_hour))) dir
    | _, _, _, _, _ => dir
    end.
Proof. exact (forgot_store_cases isEmail normalizeEmail env req dir). Qed.

(** X9: [forgot] never changes a password: under every address, the
    password the directory holds after it is the one it held before. *)
Theorem forgot_keeps_passwords
  (isEmail : string -> bool) (normalizeEmail : string -> string)
  (env : Env) (req : Request) (dir : list UserRecord) (a : string) :
  option_map password
    (lookup (ByEmail a)
            (store (run (forgot isEmail normalizeEmail env req) dir)))
  = option_map password (lookup (ByEmail a) dir).
Proof.
  rewrite forgot_store_cases.
  destruct (isEmail (body_email req)); [|reflexivity].
  destruct (random_source env) as [re|src]; [reflexivity|].
  destruct (findOne_err env); [reflexivity|].
  destruct (lookup (ByEmail (normalizeEmail (body_email req))) dir)
    as [u|] eqn:Hl; [|reflexivity].
  destruct (save_err env); [reflexivity|].
  set (u' := mkUser (email u) (password u) _ _).
  destruct (String.eqb_spec (email u) a) as [E|E].
  - subst a. rewrite (lookup_update_email u').
    + pose proof (lookup_ByEmail_email _ _ _ Hl) as Ee.
      rewrite Ee, Hl. reflexivity.
    + exists u. split; [now apply lookup_In in Hl | reflexivity].
  - now rewrite (lookup_ByEmail_update_other a u').
Qed.

(** X10: an address that is not valid is answered with the validation
    error, status 400, before anything else happens: no random bytes are
    drawn, no lookup is made, nothing is saved or mailed. *)
Theorem forgot_invalid_email_fails_fast
  (isEmail : string -> bool) (normalizeEmail : string -> string)
  (env : Env) (req : Request) (dir : list UserRecord) :
  isEmail (body_email req) = false ->
  forgot isEmail normalizeEmail env req (begin_request dir)
  = (inl tt,
     mkSt dir
          (Some (400, ValidationErrors
                        [("email", "Please enter a valid email address.")]))
          [] [] None [] []).
Proof.
  intros He. unfold forgot, forgot_errors. rewrite He. reflexivity.
Qed.

Lemma forgot_invalid_email_fails_fast_witness :
  forgot Sample.isEmail Sample.normalizeEmail (Sample.env_ok Sample.T)
         (Sample.forgot_request "alice.example.com")
         (begin_request Sample.dir0)
  = (inl tt,
     mkSt Sample.dir0
          (Some (400, ValidationErrors
                        [("email", "Please enter a valid email address.")]))
          [] [] None [] []).
Proof.
  apply (forgot_invalid_email_fails_fast
           Sample.isEmail Sample.normalizeEmail (Sample.env_ok Sample.T)
           (Sample.forgot_request "alice.example.com") Sample.dir0).
  reflexivity.
Defined.

(** X11: when the save fails, [forgot] stores no token and sends no
    mail.  The error goes to [next] and nothing is answered, unless its
    message is "User not found": the final callback takes any error with
    that message for an unknown address and answers with the
    acknowledgment. *)
Theorem forgot_save_failure
  (isEmail : string -> bool) (normalizeEmail : string -> string)
  (env : Env) (req : Request) (dir : list UserRecord) (u : UserRecord)
  (src : nat -> Byte.byte) (e : JS.Error) :
  isEmail (body_email req) = true ->
  random_source env = inr src -> findOne_err env = None ->
  lookup (ByEmail (normalizeEmail (body_email req))) dir = Some u ->
  save_err env = Some e ->
  let st := run (forgot isEmail normalizeEmail env req) dir in
  store st = dir /\ mails st = []
  /\ calls st = [CallRandomBytes; CallFindOne; CallSave]
  /\ response st
     = (if String.eqb (JS.message e) "User not found"
        then Some (200, acknowledgment (normalizeEmail (body_email req)))
        else None)
  /\ nexts st
     = (if String.eqb (JS.message e) "User not found" then [] else [e]).
Proof.
  intros He Hr Hf Hl Hs. cbv zeta. unfold run, forgot, forgot_errors.
  rewrite He. cbv zeta iota.
  destruct env as [now rnd ferr serr lerr merr], req as [au t a pw cpw h].
  simpl in He, Hr, Hf, Hl, Hs. subst rnd ferr serr.
  step_handler. rewrite Hl. destruct e as [msg]. step_handler.
  destruct (String.eqb msg "User not found"); repeat split.
Qed.

Lemma forgot_save_failure_witness :
  let st := run (forgot Sample.isEmail Sample.normalizeEmail
                        (SampleAccounts.env_save_fails Sample.T)
                        (Sample.forgot_request "alice@example.com"))
                Sample.dir0 in
  store st = Sample.dir0 /\ mails st = []
  /\ calls st = [CallRandomBytes; CallFindOne; CallSave]
  /\ response st = None
  /\ nexts st = [JS.mkError "ServiceUnavailable"].
Proof.
  apply (forgot_save_failure
           Sample.isEmail Sample.normalizeEmail
           (SampleAccounts.env_save_fails Sample.T)
           (Sample.forgot_request "alice@example.com")
           Sample.dir0 Sample.alice Sample.bytes
           (JS.mkError "ServiceUnavailable")); reflexivity.
Defined.

(** A token that no record carried is, once one record is saved with it,
    the key of that record's address. *)
Lemma token_is_key_update_fresh (t : string) (u' : UserRecord)
  (dir : list UserRecord) :
  lookup (ByToken t) dir = None ->
  token_is_key t (update u' dir) = true.
Proof.
  intros Hnone. unfold token_is_key.
  destruct (lookup (ByToken t) (update u' dir)) as [v|] eqn:Hv;
    [|reflexivity].
  apply forallb_forall. intros r Hr.
  destruct (matches (ByToken t) r) eqn:Hm; [|reflexivity]. simpl.
  assert (K : forall x, In x (update u' dir) ->
                        matches (ByToken t) x = true -> x = u').
  { intros x Hx Hmx. apply In_update in Hx. destruct Hx as [->|[Hx _]].
    - reflexivity.
    - pose proof (find_none _ _ Hnone x Hx) as N. congruence. }
  rewrite (K r Hr Hm).
  apply find_some in Hv. destruct Hv as [Hv1 Hv2].
  rewrite (K v Hv1 Hv2). apply String.eqb_refl.
Qed.

(** X12: a new request supersedes the pending one.  When the record of
    the address held a token and [forgot] stores another, no record
    carries the old token any more: [getReset] answers 403 to it and
    [postReset] with it neither succeeds nor changes anything. *)
Theorem forgot_supersedes_prior_token
  (isEmail : string -> bool) (normalizeEmail : string -> string)
  (env : Env) (req : Request) (dir : list UserRecord) (u : UserRecord)
  (src : nat -> Byte.byte) (old : string) :
  isEmail (body_email req) = true ->
  random_source env = inr src ->
  findOne_err env = None -> save_err env = None ->
  lookup (ByEmail (normalizeEmail (body_email req))) dir = Some u ->
  lookup (ByToken old) dir = Some u ->
  token_is_key old dir = true ->
  JS.Buffer_toString_hex (map src (seq 0 16)) <> old ->
  let dir' := store (run (forgot isEmail normalizeEmail env req) dir) in
  lookup (ByToken old) dir' = None
  /\ forall env2 req2,
       params_token req2 = old ->
       (isAuthenticated req2 = false -> findOne_err env2 = None ->
        verify_TokenInvalidOrExpired (run (getReset env2 req2) dir'))
       /\ ~ redeem_succeeds (run (postReset env2 req2) dir')
       /\ store (run (postReset env2 req2) dir') = dir'.
Proof.
  intros He Hr Hf Hs Hl Hold Hkey Hne. cbv zeta.
  destruct (forgot_present isEmail normalizeEmail env req dir u src
              He Hr Hf Hs Hl) as [Hst _].
  rewrite Hst.
  set (u' := mkUser (email u) (password u) _ _).
  assert (Hnone : lookup (ByToken old) (update u' dir) = None).
  { apply (lookup_ByToken_update_replaced old u u' dir);
      try assumption; try reflexivity.
    unfold u'. cbn [matches passwordResetToken].
    apply String.eqb_neq. exact Hne. }
  split; [exact Hnone|]. intros env2 req2 Ht. rewrite <- Ht in Hnone.
  split.
  - intros Ha Hf2. unfold verify_TokenInvalidOrExpired.
    now rewrite (getReset_outcome env2 req2 _ Ha Hf2), Hnone.
  - exact (postReset_unknown_token_fails env2 req2 _ Hnone).
Qed.

Lemma forgot_supersedes_prior_token_witness :
  let dir' :=
    store (run (forgot Sample.isEmail Sample.normalizeEmail
                       (SampleAccounts.env_ok2 (Sample.T + 60000))
                       (Sample.forgot_request "alice@example.com"))
               Sample.dir1) in
  lookup (ByToken Sample.token) dir' = None
  /\ forall env2 req2,
       params_token req2 = Sample.token ->
       (isAuthenticated req2 = false -> findOne_err env2 = None ->
        verify_TokenInvalidOrExpired (run (getReset env2 req2) dir'))
       /\ ~ redeem_succeeds (run (postReset env2 req2) dir')
       /\ store (run (postReset env2 req2) dir') = dir'.
Proof.
  apply (forgot_supersedes_prior_token
           Sample.isEmail Sample.normalizeEmail
           (SampleAccounts.env_ok2 (Sample.T + 60000))
           (Sample.forgot_request "alice@example.com")
           Sample.dir1
           (mkUser "alice@example.com" "correct horse"
                   (Some Sample.token) (Some (Sample.T + one_hour)))
           SampleAccounts.bytes2 Sample.token);
    try reflexivity.
  vm_compute. discriminate.
Defined.

(** X13: the token that [forgot] stores is the one the lookup by token
    finds.  When no record carried the new token before, the lookup by
    it gives the record of the address, with the expiry one hour ahead,
    and [getReset] accepts it from a caller without a session unless the
    token itself reads as a number below the clock. *)
Theorem forgot_then_lookup_by_token
  (isEmail : string -> bool) (normalizeEmail : string -> string)
  (env : Env) (req : Request) (dir : list UserRecord) (u : UserRecord)
  (src : nat -> Byte.byte) :
  isEmail (body_email req) = true ->
  random_source env = inr src ->
  findOne_err env = None -> save_err env = None ->
  lookup (ByEmail (normalizeEmail (body_email req))) dir = Some u ->
  let token := JS.Buffer_toString_hex (map src (seq 0 16)) in
  lookup (ByToken token) dir = None ->
  let dir' := store (run (forgot isEmail normalizeEmail env req) dir) in
  lookup (ByToken token) dir'
  = Some (mkUser (email u) (password u) (Some token)
                 (Some (Date_now env + one_hour)))
  /\ forall env2 req2,
       params_token req2 = token -> isAuthenticated req2 = false ->
       findOne_err env2 = None ->
       JS.lt (Some token) (Date_now env2) = false ->
       verify_succeeds (run (getReset env2 req2) dir').
Proof.
  intros He Hr Hf Hs Hl token Hfresh. cbv zeta.
  destruct (forgot_present isEmail normalizeEmail env req dir u src
              He Hr Hf Hs Hl) as [Hst _].
  rewrite Hst. fold token.
  set (u' := mkUser (email u) (password u) (Some token) _).
  assert (Hfound : lookup (ByToken token) (update u' dir) = Some u').
  { apply lookup_ByToken_update_fresh; [exact Hfresh|reflexivity|].
    exists u. split; [now apply lookup_In in Hl | reflexivity]. }
  split; [exact Hfound|].
  intros env2 req2 Ht Ha Hf2 Hlt. unfold verify_succeeds.
  rewrite (getReset_outcome env2 req2 _ Ha Hf2), Ht, Hfound.
  simpl passwordResetToken. now rewrite Hlt.
Qed.

Lemma forgot_then_lookup_by_token_witness :
  let dir' :=
    store (run (forgot Sample.isEmail Sample.normalizeEmail
                       (Sample.env_ok Sample.T)
                       (Sample.forgot_request "alice@example.com"))
               Sample.dir0) in
  lookup (ByToken Sample.token) dir'
  = Some (mkUser "alice@example.com" "correct horse" (Some Sample.token)
                 (Some (Sample.T + one_hour)))
  /\ forall env2 req2,
       params_token req2 = Sample.token -> isAuthenticated req2 = false ->
       findOne_err env2 = None ->
       JS.lt (Some Sample.token) (Date_now env2) = false ->
       verify_succeeds (run (getReset env2 req2) dir').
Proof.
  apply (forgot_then_lookup_by_token
           Sample.isEmail Sample.normalizeEmail (Sample.env_ok Sample.T)
           (Sample.forgot_request "alice@example.com")
           Sample.dir0 Sample.alice Sample.bytes); reflexivity.
Defined.

(** X14: issuing and redeeming compose.  After [forgot] has stored a
    token that no record carried before, a valid [postReset] with that
    token, let through by the guard, answers "Success!"; the record of
    the address then has the new password, and neither it nor any other
    record carries the token. *)
Theorem forgot_then_postReset
  (isEmail : string -> bool) (normalizeEmail : string -> string)
  (env env2 : Env) (req req2 : Request) (dir : list UserRecord)
  (u : UserRecord) (src : nat -> Byte.byte) :
  isEmail (body_email req) = true ->
  random_source env = inr src ->
  findOne_err env = None -> save_err env = None ->
  lookup (ByEmail (normalizeEmail (body_email req))) dir = Some u ->
  let token := JS.Buffer_toString_hex (map src (seq 0 16)) in
  lookup (ByToken token) dir = None ->
  params_token req2 = token -> postReset_errors req2 = [] ->
  findOne_err env2 = None -> save_err env2 = None ->
  logIn_err env2 = None ->
  JS.lt (Some token) (Date_now env2) = false ->
  let dir' := store (run (forgot isEmail normalizeEmail env req) dir) in
  let st := run (postReset env2 req2) dir' in
  redeem_succeeds st
  /\ lookup (ByEmail (email u)) (store st)
     = Some (mkUser (email u) (body_password req2) None None)
  /\ lookup (ByToken token) (store st) = None.
Proof.
  intros He Hr Hf Hs Hl token Hfresh Ht Hv2 Hf2 Hs2 Hg2 Hlt. cbv zeta.
  destruct (forgot_present isEmail normalizeEmail env req dir u src
              He Hr Hf Hs Hl) as [Hst _].
  rewrite Hst. fold token.
  set (u' := mkUser (email u) (password u) (Some token) _).
  assert (Hfound : lookup (ByToken (params_token req2)) (update u' dir)
                   = Some u').
  { rewrite Ht. apply lookup_ByToken_update_fresh;
      [exact Hfresh|reflexivity|].
    exists u. split; [now apply lookup_In in Hl | reflexivity]. }
  assert (Hkey : token_is_key (params_token req2) (update u' dir) = true).
  { rewrite Ht. now apply token_is_key_update_fresh. }
  split.
  - now apply (postReset_found_succeeds env2 req2 _ u').
  - rewrite <- Ht.
    exact (postReset_success_cleared env2 req2 _ u' Hkey Hv2 Hf2 Hs2
                                     Hfound).
Qed.

Lemma forgot_then_postReset_witness :
  let dir' :=
    store (run (forgot Sample.isEmail Sample.normalizeEmail
                       (Sample.env_ok Sample.T)
                       (Sample.forgot_request "alice@example.com"))
               Sample.dir0) in
  let st := run (postReset (Sample.env_ok (Sample.T + 60000))
                           (Sample.redeem_request false Sample.token
                                                  "tr0ub4dor" "tr0ub4dor"))
                dir' in
  redeem_succeeds st
  /\ lookup (ByEmail "alice@example.com") (store st)
     = Some (mkUser "alice@example.com" "tr0ub4dor" None None)
  /\ lookup (ByToken Sample.token) (store st) = None.
Proof.
  apply (forgot_then_postReset
           Sample.isEmail Sample.normalizeEmail
           (Sample.env_ok Sample.T) (Sample.env_ok (Sample.T + 60000))
           (Sample.forgot_request "alice@example.com")
           (Sample.redeem_request false Sample.token
                                  "tr0ub4dor" "tr0ub4dor")
           Sample.dir0 Sample.alice Sample.bytes); reflexivity.
Defined.

(** X15: the mail of [forgot] goes to the address stored in the record,
    and its text holds the link to redeem, made of the host of the
    request and the token as it is stored. *)
Theorem forgot_mail_embeds_link
  (isEmail : string -> bool) (normalizeEmail : string -> string)
  (env : Env) (req : Request) (dir : list UserRecord) (u : UserRecord)
  (src : nat -> Byte.byte) :
  isEmail (body_email req) = true ->
  random_source env = inr src ->
  findOne_err env = None -> save_err env = None ->
  lookup (ByEmail (normalizeEmail (body_email req))) dir = Some u ->
  let st := run (forgot isEmail normalizeEmail env req) dir in
  let token := JS.Buffer_toString_hex (map src (seq 0 16)) in
  exists before after,
    mails st
    = [mkMail (email u) "service@cooper.com"
              "Reset your password on Cooper"
              (before ++ "http://" ++ headers_host req ++ "/reset/"
                      ++ token ++ after)].
Proof.
  intros He Hr Hf Hs Hl. cbv zeta. unfold run, forgot, forgot_errors.
  rewrite He. cbv zeta iota.
  destruct env as [now rnd ferr serr lerr merr], req as [au t a pw cpw h].
  simpl in He, Hr, Hf, Hs, Hl. subst rnd ferr serr.
  step_handler. rewrite Hl.
  exists ("You are receiving this email because you (or someone else) have requested the reset of the password for your account."
          ++ nl ++ nl ++ nl ++ "          "
          ++ "Please click on the following link, or paste this into your browser to complete the process:"
          ++ nl ++ nl ++ nl ++ "          ").
  exists (nl ++ nl ++ nl ++ "          "
          ++ "If you did not request this, please ignore this email and your password will remain unchanged."
          ++ nl).
  destruct merr as [[mm]|]; [|reflexivity].
  step_handler. destruct (String.eqb mm "User not found"); reflexivity.
Qed.

Lemma forgot_mail_embeds_link_witness :
  let st := run (forgot Sample.isEmail Sample.normalizeEmail
                        (Sample.env_ok Sample.T)
                        (Sample.forgot_request "alice@example.com"))
                Sample.dir0 in
  exists before after,
    mails st
    = [mkMail "alice@example.com" "service@cooper.com"
              "Reset your password on Cooper"
              (before ++ "http://" ++ "cooper.example" ++ "/reset/"
                      ++ Sample.token ++ after)].
Proof.
  apply (forgot_mail_embeds_link
           Sample.isEmail Sample.normalizeEmail (Sample.env_ok Sample.T)
           (Sample.forgot_request "alice@example.com")
           Sample.dir0 Sample.alice Sample.bytes); reflexivity.
Defined.

(** ** The order of the save and the mail *)

(** Splits the run of a handler along the answers of its collaborators. *)
Ltac split_run :=
  repeat (step_handler;
          match goal with
          | |- context [match ?x with _ => _ end] =>
              first [ is_var x; destruct x
                    | match x with
                      | lookup _ _ => destruct x
                      | not_user_or_token_lt_now _ _ => destruct x
                      | String.eqb _ _ => destruct x
                      end ]
          end).

(** Closes a case of a run for the two theorems on the order of the
    save and the mail. *)
Ltac mail_after_save :=
  simpl; split; [lia|]; split;
  [ intros H;
    first [ exfalso; apply H; reflexivity
          | split; [reflexivity|];
            match goal with
            | |- exists before, ?l = _ /\ _ => exists (removelast l)
            end; simpl; intuition congruence ]
  | intros H; simpl; intuition congruence ].

(** X17: [postReset] sends at most one mail, and the mail comes after
    the save: when a mail was sent, the save worked, the call to the
    transporter is the last of the calls, and the save is among those
    before it; when none was sent, the transporter was not called. *)
Theorem postReset_mail_only_after_save
  (env : Env) (req : Request) (dir : list UserRecord) :
  let st := run (postReset env req) dir in
  (List.length (mails st) <= 1)%nat
  /\ (mails st <> [] ->
      save_err env = None
      /\ exists before,
           calls st = (before ++ [CallSendMail])%list
           /\ In CallSave before /\ ~ In CallSendMail before)
  /\ (mails st = [] -> ~ In CallSendMail (calls st)).
Proof.
  cbv zeta. unfold run, postReset. cbv zeta.
  destruct (postReset_errors req) as [|x errors];
    [|mail_after_save].
  destruct env as [now rnd ferr serr lerr merr], req as [au t e pw cpw h].
  split_run; mail_after_save.
Qed.

(** X18: [forgot] sends at most one mail, and the mail comes after the
    save: when a mail was sent, the save worked, the call to the
    transporter is the last of the calls, and the save is among those
    before it; when none was sent, the transporter was not called. *)
Theorem forgot_mail_only_after_save
  (isEmail : string -> bool) (normalizeEmail : string -> string)
  (env : Env) (req : Request) (dir : list UserRecord) :
  let st := run (forgot isEmail normalizeEmail env req) dir in
  (List.length (mails st) <= 1)%nat
  /\ (mails st <> [] ->
      save_err env = None
      /\ exists before,
           calls st = (before ++ [CallSendMail])%list
           /\ In CallSave before /\ ~ In CallSendMail before)
  /\ (mails st = [] -> ~ In CallSendMail (calls st)).
Proof.
  cbv zeta. unfold run, forgot, forgot_errors.
  destruct (isEmail (body_email req)); [|mail_after_save].
  cbv zeta iota.
  destruct env as [now rnd ferr serr lerr merr], req as [au t e pw cpw h].
  split_run; mail_after_save.
Qed.

(** ** The token keeps all the random bytes *)

Lemma byte_of_hex_byte_to_hex (b : Byte.byte) :
  byte_of_hex (JS.hex_digit (Byte.to_N b / 16))
              (JS.hex_digit (Byte.to_N b mod 16)) = Some b.
Proof. destruct b; reflexivity. Qed.

(** Reading the hexadecimal string back gives the buffer. *)
Lemma bytes_of_hex_Buffer_toString_hex (buf : list Byte.byte) :
  bytes_of_hex (JS.Buffer_toString_hex buf) = Some buf.
Proof.
  induction buf as [|b buf IH]; [reflexivity|].
  change (JS.Buffer_toString_hex (b :: buf))
    with (String (JS.hex_digit (Byte.to_N b / 16))
            (String (JS.hex_digit (Byte.to_N b mod 16))
               (JS.Buffer_toString_hex buf))).
  cbn [bytes_of_hex]. now rewrite byte_of_hex_byte_to_hex, IH.
Qed.

(** X19: [buf.toString("hex")] loses nothing: two buffers with the same
    hexadecimal string are the same buffer, so two draws of the random
    source give the same token only when they gave the same 16 bytes. *)
Theorem Buffer_toString_hex_injective (buf1 buf2 : list Byte.byte) :
  JS.Buffer_toString_hex buf1 = JS.Buffer_toString_hex buf2 ->
  buf1 = buf2.
Proof.
  intros H.
  pose proof (bytes_of_hex_Buffer_toString_hex buf1) as H1.
  pose proof (bytes_of_hex_Buffer_toString_hex buf2) as H2.
  rewrite H in H1. congruence.
Qed.

Lemma Buffer_toString_hex_injective_witness :
  map Sample.bytes (seq 0 16) = map Sample.bytes (seq 0 16).
Proof.
  apply (Buffer_toString_hex_injective
           (map Sample.bytes (seq 0 16)) (map Sample.bytes (seq 0 16))).
  reflexivity.
Defined.

(* ================================================================== *)
(** * The account handlers *)

(** ** POST /signup *)

Section SignupProperties.

Variable isEmail : string -> bool.
Variable normalizeEmail : string -> string.
Variable create : UserRecord -> list UserRecord -> list UserRecord.

Lemma signup_errors_nil (req : Request) :
  signup_errors isEmail req = [] <->
  isEmail (body_email req) = true
  /\ (4 <= String.length (body_password req))%nat
  /\ body_confirmPassword req = body_password req.
Proof.
  unfold signup_errors, len_min.
  destruct (isEmail (body_email req));
    destruct (Nat.leb_spec 4 (String.length (body_password req)));
    destruct (String.eqb_spec (body_confirmPassword req)
                              (body_password req));
    simpl; split; intros G; try discriminate; try tauto;
    destruct G as [G1 [G2 G3]]; try discriminate; try lia;
    contradiction.
Qed.

(** X20: an address that is not valid, a password of fewer than 4
    characters or a confirmation that differs is answered with the
    validation errors, status 400, before any collaborator is called:
    no lookup is made and nothing is saved. *)
Theorem signup_invalid_input_fails_fast
  (env : Env) (req : Request) (dir : list UserRecord) :
  isEmail (body_email req) = false
  \/ (String.length (body_password req) < 4)%nat
  \/ body_confirmPassword req <> body_password req ->
  signup_errors isEmail req <> []
  /\ signup isEmail normalizeEmail create env req (begin_request dir)
     = (inl tt,
        mkSt dir
             (Some (400, ValidationErrors (signup_errors isEmail req)))
             [] [] None [] []).
Proof.
  intros H.
  assert (E : signup_errors isEmail req <> []).
  { intros E. apply signup_errors_nil in E. destruct E as [E1 [E2 E3]].
    destruct H as [H|[H|H]]; [congruence | lia | contradiction]. }
  split; [exact E|]. unfold signup. cbv zeta.
  destruct (signup_errors isEmail req) as [|x errors].
  - contradiction.
  - reflexivity.
Qed.

(** X21: for an address that a record of the directory has, [signup]
    answers 400 "Account with that email address already exists."; it
    saves nothing and opens no session. *)
Theorem signup_existing_address
  (env : Env) (req : Request) (dir : list UserRecord) (u : UserRecord) :
  signup_errors isEmail req = [] ->
  findOne_err env = None ->
  lookup (ByEmail (normalizeEmail (body_email req))) dir = Some u ->
  signup isEmail normalizeEmail create env req (begin_request dir)
  = (inl tt,
     mkSt dir
          (Some (400,
                 Text "Account with that email address already exists."))
          [] [] None [CallFindOne] []).
Proof.
  intros Hv Hf Hl. unfold signup. rewrite Hv. cbv zeta.
  unfold signup_findOne_cb, user_create.
  destruct env as [now rnd ferr serr lerr merr], req as [au t e pw cpw h].
  simpl in Hf, Hl. subst ferr. step_handler. rewrite Hl. reflexivity.
Qed.

(** X22: for a valid request with an address that no record has, and
    collaborators that work, [signup] saves a new user with the
    normalized address, the password, and no reset pending, opens the
    session of that user and answers 201. *)
Theorem signup_registers
  (env : Env) (req : Request) (dir : list UserRecord) :
  signup_errors isEmail req = [] ->
  findOne_err env = None -> save_err env = None -> logIn_err env = None ->
  lookup (ByEmail (normalizeEmail (body_email req))) dir = None ->
  let user := mkUser (normalizeEmail (body_email req))
                     (body_password req) None None in
  no_reset user = true
  /\ signup isEmail normalizeEmail create env req (begin_request dir)
     = (inl tt,
        mkSt (create user dir)
             (Some (201, Text "Success! User registered."))
             [] [] (Some (normalizeEmail (body_email req)))
             [CallFindOne; CallSave; CallLogIn] []).
Proof.
  intros Hv Hf Hs Hg Hl. cbv zeta. split; [reflexivity|].
  unfold signup. rewrite Hv. cbv zeta.
  unfold signup_findOne_cb, user_create.
  destruct env as [now rnd ferr serr lerr merr], req as [au t e pw cpw h].
  simpl in Hf, Hs, Hg, Hl. subst ferr serr lerr.
  step_handler. rewrite Hl. reflexivity.
Qed.

(** X23: when the lookup fails, [signup] hands the error to [next] but,
    there being no [return], goes on as if no record had the address:
    with a save and a login that work it saves the new user, opens the
    session and answers 201, whether or not a record has the address
    already. *)
Theorem signup_lookup_failure_still_registers
  (env : Env) (req : Request) (dir : list UserRecord) (e : JS.Error) :
  signup_errors isEmail req = [] ->
  findOne_err env = Some e -> save_err env = None ->
  logIn_err env = None ->
  signup isEmail normalizeEmail create env req (begin_request dir)
  = (inl tt,
     mkSt (create (mkUser (normalizeEmail (body_email req))
                          (body_password req) None None) dir)
          (Some (201, Text "Success! User registered."))
          [e] [] (Some (normalizeEmail (body_email req)))
          [CallFindOne; CallSave; CallLogIn] []).
Proof.
  intros Hv Hf Hs Hg. unfold signup. rewrite Hv. cbv zeta.
  unfold signup_findOne_cb, user_create.
  destruct env as [now rnd ferr serr lerr merr], req as [au t a pw cpw h].
  simpl in Hf, Hs, Hg. subst ferr serr lerr. reflexivity.
Qed.

End SignupProperties.

Lemma signup_invalid_input_fails_fast_witness :
  let req := SampleAccounts.account_request "carol@example.com"
                                            "abc" "abc" in
  signup_errors Sample.isEmail req <> []
  /\ signup Sample.isEmail Sample.normalizeEmail SampleAccounts.create
            (Sample.env_ok Sample.T) req (begin_request Sample.dir0)
     = (inl tt,
        mkSt Sample.dir0
             (Some (400,
                    ValidationErrors
                      [("password",
                        "Password must be at least 4 characters long")]))
             [] [] None [] []).
Proof.
  apply (signup_invalid_input_fails_fast
           Sample.isEmail Sample.normalizeEmail SampleAccounts.create
           (Sample.env_ok Sample.T)
           (SampleAccounts.account_request "carol@example.com"
                                           "abc" "abc")
           Sample.dir0).
  right. left. simpl. lia.
Defined.

Lemma signup_existing_address_witness :
  signup Sample.isEmail Sample.normalizeEmail SampleAccounts.create
         (Sample.env_ok Sample.T)
         (SampleAccounts.account_request "alice@example.com"
                                         "another" "another")
         (begin_request Sample.dir0)
  = (inl tt,
     mkSt Sample.dir0
          (Some (400,
                 Text "Account with that email address already exists."))
          [] [] None [CallFindOne] []).
Proof.
  apply (signup_existing_address
           Sample.isEmail Sample.normalizeEmail SampleAccounts.create
           (Sample.env_ok Sample.T)
           (SampleAccounts.account_request "alice@example.com"
                                           "another" "another")
           Sample.dir0 Sample.alice); reflexivity.
Defined.

Lemma signup_registers_witness :
  let user := mkUser "carol@example.com" "staple" None None in
  no_reset user = true
  /\ signup Sample.isEmail Sample.normalizeEmail SampleAccounts.create
            (Sample.env_ok Sample.T)
            (SampleAccounts.account_request "carol@example.com"
                                            "staple" "staple")
            (begin_request Sample.dir0)
     = (inl tt,
        mkSt [Sample.alice; Sample.bob; user]
             (Some (201, Text "Success! User registered."))
             [] [] (Some "carol@example.com")
             [CallFindOne; CallSave; CallLogIn] []).
Proof.
  apply (signup_registers
           Sample.isEmail Sample.normalizeEmail SampleAccounts.create
           (Sample.env_ok Sample.T)
           (SampleAccounts.account_request "carol@example.com"
                                           "staple" "staple")
           Sample.dir0); reflexivity.
Defined.

Lemma signup_lookup_failure_still_registers_witness :
  signup Sample.isEmail Sample.normalizeEmail SampleAccounts.create
         (SampleAccounts.env_find_fails Sample.T)
         (SampleAccounts.account_request "alice@example.com"
                                         "another" "another")
         (begin_request Sample.dir0)
  = (inl tt,
     mkSt [Sample.alice; Sample.bob;
           mkUser "alice@example.com" "another" None None]
          (Some (201, Text "Success! User registered."))
          [JS.mkError "ServiceUnavailable"] []
          (Some "alice@example.com")
          [CallFindOne; CallSave; CallLogIn] []).
Proof.
  apply (signup_lookup_failure_still_registers
           Sample.isEmail Sample.normalizeEmail SampleAccounts.create
           (SampleAccounts.env_find_fails Sample.T)
           (SampleAccounts.account_request "alice@example.com"
                                           "another" "another")
           Sample.dir0 (JS.mkError "ServiceUnavailable")); reflexivity.
Defined.

(** ** POST /login *)

(** X24: [login] answers 200 "Success! You are logged in." exactly when
    the input is valid, the strategy gave a user and no error, and
    [req.logIn] worked, and the session it then opens is that user's;
    in every other case it opens none.  It never changes the directory
    and never sends a mail. *)
Theorem login_succeeds_iff
  (isEmail notEmpty : string -> bool) (auth : AuthResult)
  (env : Env) (req : Request) (dir : list UserRecord) :
  let st := run (login isEmail notEmpty auth env req) dir in
  store st = dir /\ mails st = []
  /\ (response st = Some (200, Text "Success! You are logged in.") <->
      login_errors isEmail notEmpty req = []
      /\ fst (fst auth) = None /\ snd (fst auth) <> None
      /\ logIn_err env = None)
  /\ session st
     = (if match response st with
           | Some (200, _) => true
           | _ => false
           end
        then option_map email (snd (fst auth)) else None).
Proof.
  cbv zeta. unfold run, login. cbv zeta.
  destruct (login_errors isEmail notEmpty req) as [|x errors].
  - unfold login_authenticate_cb.
    destruct auth as [[[ae|] [u|]] [msg|]];
      destruct env as [now rnd ferr serr [le|] merr];
      step_handler; cbn [fst snd option_map];
      intuition congruence.
  - cbn. intuition congruence.
Qed.

(** ** POST /account/password *)

(** Saving the record that a token finds, with the same address and
    token, keeps it the one that the token finds. *)
Lemma lookup_ByToken_update_same (t : string) (u u' : UserRecord)
  (dir : list UserRecord) :
  lookup (ByToken t) dir = Some u ->
  email u' = email u -> passwordResetToken u' = passwordResetToken u ->
  lookup (ByToken t) (update u' dir) = Some u'.
Proof.
  unfold lookup, update. intros Hl He Ht.
  assert (Hm : matches (ByToken t) u' = true).
  { apply find_some in Hl. destruct Hl as [_ Hl].
    cbn [matches] in *. now rewrite Ht. }
  induction dir as [|x dir IH]; [discriminate|].
  cbn [find] in Hl. cbn [map find].
  destruct (String.eqb_spec (email x) (email u')) as [E|E].
  - now rewrite Hm.
  - destruct (matches (ByToken t) x) eqn:Hx.
    + injection Hl as ->. congruence.
    + now apply IH.
Qed.

(** X25: the whole effect of [postUpdatePassword] on the directory.  It
    saves, and then the record of the session's user with the new
    password and with its token and expiry as they were, exactly when
    the input is valid, there is a session user, the lookup works and
    finds the record, and the save works; in every other case the
    directory is as it was. *)
Theorem postUpdatePassword_store_effect
  (env : Env) (req_user : option UserRecord) (req : Request)
  (dir : list UserRecord) :
  store (run (postUpdatePassword env req_user req) dir)
  = match postUpdatePassword_errors req, req_user, findOne_err env,
          save_err env with
    | [], Some me, None, None =>
        match lookup (ByEmail (email me)) dir with
        | Some u =>
            update (mkUser (email u) (body_password req)
                           (passwordResetToken u)
                           (passwordResetExpires u)) dir
        | None => dir
        end
    | _, _, _, _ => dir
    end.
Proof.
  unfold run, postUpdatePassword. cbv zeta.
  destruct (postUpdatePassword_errors req) as [|x errors];
    [|reflexivity].
  destruct req_user as [me|]; [|reflexivity].
  unfold postUpdatePassword_findOne_cb.
  destruct env as [now rnd ferr serr lerr merr], req as [au t e pw cpw h].
  step_handler. destruct ferr; [reflexivity|].
  destruct (lookup (ByEmail (email me)) dir);
    destruct serr; reflexivity.
Qed.

(** X26: changing the password does not end a pending reset.  After a
    [postUpdatePassword] that went through, the record has the new
    password and the token and expiry it had, and a token that found
    the record before still finds it: [getReset] answers to it as it did
    before the change. *)
Theorem postUpdatePassword_keeps_pending_reset
  (env : Env) (me u : UserRecord) (req : Request)
  (dir : list UserRecord) :
  postUpdatePassword_errors req = [] ->
  findOne_err env = None -> save_err env = None ->
  lookup (ByEmail (email me)) dir = Some u ->
  let st := run (postUpdatePassword env (Some me) req) dir in
  let u' := mkUser (email u) (body_password req)
                   (passwordResetToken u) (passwordResetExpires u) in
  response st = Some (200, Text "Password has been changed.")
  /\ lookup (ByEmail (email me)) (store st) = Some u'
  /\ forall t,
       lookup (ByToken t) dir = Some u ->
       lookup (ByToken t) (store st) = Some u'
       /\ forall env2 req2,
            params_token req2 = t -> isAuthenticated req2 = false ->
            findOne_err env2 = None ->
            response (run (getReset env2 req2) (store st))
            = response (run (getReset env2 req2) dir).
Proof.
  intros Hv Hf Hs Hl. cbv zeta.
  assert (R : postUpdatePassword env (Some me) req (begin_request dir)
              = (inl tt,
                 mkSt (update (mkUser (email u) (body_password req)
                                 (passwordResetToken u)
                                 (passwordResetExpires u)) dir)
                      (Some (200, Text "Password has been changed."))
                      [] [] None [CallFindOne; CallSave] [])).
  { unfold postUpdatePassword. rewrite Hv. cbv zeta.
    unfold postUpdatePassword_findOne_cb.
    destruct env as [now rnd ferr serr lerr merr],
             req as [au t e pw cpw h].
    simpl in Hf, Hs. subst ferr serr. step_handler. rewrite Hl.
    reflexivity. }
  unfold run. rewrite R. cbn [snd store response].
  set (u' := mkUser (email u) (body_password req) _ _).
  split; [reflexivity|]. split.
  - rewrite <- (lookup_ByEmail_email _ _ _ Hl).
    apply (lookup_update_email u'). exists u.
    split; [now apply lookup_In in Hl | reflexivity].
  - intros t Ht.
    assert (Ht' : lookup (ByToken t) (update u' dir) = Some u')
      by (apply (lookup_ByToken_update_same t u u' dir);
          [exact Ht | reflexivity | reflexivity]).
    split; [exact Ht'|].
    intros env2 req2 E Ha Hf2.
    pose proof (getReset_outcome env2 req2 (update u' dir) Ha Hf2) as G1.
    pose proof (getReset_outcome env2 req2 dir Ha Hf2) as G2.
    unfold run in G1, G2. rewrite G1, G2, E, Ht, Ht'. reflexivity.
Qed.

Lemma postUpdatePassword_keeps_pending_reset_witness :
  let env := Sample.env_ok (Sample.T + 60000) in
  let req := SampleAccounts.account_request EmptyString
                                            "tr0ub4dor" "tr0ub4dor" in
  let st := run (postUpdatePassword env (Some Sample.alice) req)
                Sample.dir1 in
  let u' := mkUser "alice@example.com" "tr0ub4dor"
                   (Some Sample.token) (Some (Sample.T + one_hour)) in
  response st = Some (200, Text "Password has been changed.")
  /\ lookup (ByEmail "alice@example.com") (store st) = Some u'
  /\ forall t,
       lookup (ByToken t) Sample.dir1
       = Some (mkUser "alice@example.com" "correct horse"
                      (Some Sample.token) (Some (Sample.T + one_hour))) ->
       lookup (ByToken t) (store st) = Some u'
       /\ forall env2 req2,
            params_token req2 = t -> isAuthenticated req2 = false ->
            findOne_err env2 = None ->
            response (run (getReset env2 req2) (store st))
            = response (run (getReset env2 req2) Sample.dir1).
Proof.
  apply (postUpdatePassword_keeps_pending_reset
           (Sample.env_ok (Sample.T + 60000)) Sample.alice
           (mkUser "alice@example.com" "correct horse"
                   (Some Sample.token) (Some (Sample.T + one_hour)))
           (SampleAccounts.account_request EmptyString
                                           "tr0ub4dor" "tr0ub4dor")
           Sample.dir1); reflexivity.
Defined.

(** ** Failures of the mail and of the random source, in general *)

Lemma postReset_mail_failure_witness :
  let st := run (postReset (Sample.env_mail_fails (Sample.T + 60000))
                           (Sample.redeem_request false Sample.token
                                                  "tr0ub4dor" "tr0ub4dor"))
                Sample.dir1 in
  redeem_succeeds st
  /\ nexts st = [JS.mkError "connect ECONNREFUSED"]
  /\ List.length (mails st) = 1%nat.
Proof.
  apply (postReset_mail_failure
           (Sample.env_mail_fails (Sample.T + 60000))
           (Sample.redeem_request false Sample.token
                                  "tr0ub4dor" "tr0ub4dor")
           Sample.dir1
           (mkUser "alice@example.com" "correct horse"
                   (Some Sample.token) (Some (Sample.T + one_hour)))
           (JS.mkError "connect ECONNREFUSED")); reflexivity.
Defined.

Lemma forgot_random_source_fails_witness :
  forgot Sample.isEmail Sample.normalizeEmail
         (Sample.env_no_entropy Sample.T)
         (Sample.forgot_request "bob@example.com")
         (begin_request Sample.dir1)
  = (inr (JS.TypeError "Cannot read property 'toString' of undefined"),
     mkSt Sample.dir1 None [] [] None [CallRandomBytes] []).
Proof.
  apply (forgot_random_source_fails
           Sample.isEmail Sample.normalizeEmail
           (Sample.env_no_entropy Sample.T)
           (Sample.forgot_request "bob@example.com") Sample.dir1
           (JS.mkError "PRNG not seeded")); reflexivity.
Defined.

(** X30: whenever the mail transport fails after [forgot] has saved the
    token, the caller is answered 200 with the acknowledgment all the
    same, the token stays stored, and one mail was tried; the error goes
    to [next] after the response, or nowhere when its message is "User
    not found". *)
Theorem forgot_mail_failure
  (isEmail : string -> bool) (normalizeEmail : string -> string)
  (env : Env) (req : Request) (dir : list UserRecord) (u : UserRecord)
  (src : nat -> Byte.byte) (e : JS.Error) :
  isEmail (body_email req) = true ->
  random_source env = inr src ->
  findOne_err env = None -> save_err env = None ->
  lookup (ByEmail (normalizeEmail (body_email req))) dir = Some u ->
  sendMail_err env = Some e ->
  let st := run (forgot isEmail normalizeEmail env req) dir in
  response st = Some (200, acknowledgment (email u))
  /\ lookup (ByEmail (email u)) (store st)
     = Some (mkUser (email u) (password u)
                    (Some (JS.Buffer_toString_hex (map src (seq 0 16))))
                    (Some (Date_now env + one_hour)))
  /\ List.length (mails st) = 1%nat
  /\ nexts st
     = (if String.eqb (JS.message e) "User not found" then [] else [e]).
Proof.
  intros He Hr Hf Hs Hl Hm. cbv zeta.
  destruct (forgot_present isEmail normalizeEmail env req dir u src
              He Hr Hf Hs Hl) as [Hst [Hresp [Hmails Hnexts]]].
  rewrite Hm in Hnexts. rewrite Hst.
  split; [exact Hresp|]. split; [|split; assumption].
  apply (lookup_update_email
           (mkUser (email u) (password u)
              (Some (JS.Buffer_toString_hex (map src (seq 0 16))))
              (Some (Date_now env + 3600000)))).
  exists u. split; [now apply lookup_In in Hl | reflexivity].
Qed.

Lemma forgot_mail_failure_witness :
  let st := run (forgot Sample.isEmail Sample.normalizeEmail
                        (Sample.env_mail_fails Sample.T)
                        (Sample.forgot_request "alice@example.com"))
                Sample.dir0 in
  response st = Some (200, acknowledgment "alice@example.com")
  /\ lookup (ByEmail "alice@example.com") (store st)
     = Some (mkUser "alice@example.com" "correct horse"
                    (Some Sample.token) (Some (Sample.T + one_hour)))
  /\ List.length (mails st) = 1%nat
  /\ nexts st = [JS.mkError "connect ECONNREFUSED"].
Proof.
  apply (forgot_mail_failure
           Sample.isEmail Sample.normalizeEmail
           (Sample.env_mail_fails Sample.T)
           (Sample.forgot_request "alice@example.com")
           Sample.dir0 Sample.alice Sample.bytes
           (JS.mkError "connect ECONNREFUSED")); reflexivity.
Defined.
